(** * postgres-mcp: the data-access layer of [src/main.py]

    A shallow embedding of the three entry points of the server
    ([get_schema_description], [get_table_description], [query_database])
    and of the session life cycle ([app_lifespan]), followed by the
    properties of the specification that concern them.

    Python objects that outlive a call (the connections) live in a store and
    are named by references; exceptions and the store are threaded through a
    small state-and-exception monad.  What the repository imports but does not
    define (the database server, [utils.config], pydantic's field validators,
    [yaml.dump]) is taken as a parameter of the development. *)

From stdpp Require Import base option list strings pretty gmap fin_maps.
From Stdlib Require Import NArith ZArith Ascii.

Set Warnings "-register-all".

(** ** Python values *)

(** The values a row can hold and the values handed to [yaml.dump].
    [PyUUID] is [uuid.UUID], carried by its 128-bit integer ([UUID.int]);
    [PyOpaque] stands for every other driver-native type ([Decimal],
    [datetime], [bytes], [float], ...), named by its type and its repr. *)
Inductive PyObj : Type :=
| PyNone
| PyBool (b : bool)
| PyInt (z : Z)
| PyStr (s : string)
| PyUUID (int : N)
| PyOpaque (type_name repr : string)
| PyList (items : list PyObj)
| PyDict (entries : gmap string PyObj).

(** [isinstance(value, uuid.UUID)] *)
Definition isinstance_UUID (value : PyObj) : bool :=
  match value with
  | PyUUID _ => true
  | _ => false
  end.

Module uuid.

Definition hex_digit (d : N) : ascii :=
  match d with
  | 0 => "0" | 1 => "1" | 2 => "2" | 3 => "3"
  | 4 => "4" | 5 => "5" | 6 => "6" | 7 => "7"
  | 8 => "8" | 9 => "9" | 10 => "a" | 11 => "b"
  | 12 => "c" | 13 => "d" | 14 => "e" | _ => "f"
  end%N%char.

(** ['%0<width>x' % n], for [n < 16 ^ width]: the digits from the most
    significant one. *)
Fixpoint hex_digits (width : nat) (n : N) : string :=
  match width with
  | O => EmptyString
  | S w => String (hex_digit ((n / 16 ^ N.of_nat w) mod 16)%N) (hex_digits w n)
  end.

(** [UUID.hex]: ['%032x' % self.int]. *)
Definition hex (int : N) : string := hex_digits 32 int.

(** [UUID.__str__]: the 8-4-4-4-12 form of [UUID.hex]. *)
Definition str (int : N) : string :=
  let x := hex int in
  String.substring 0 8 x +:+ "-" +:+ String.substring 8 4 x +:+ "-" +:+ String.substring 12 4 x
    +:+ "-" +:+ String.substring 16 4 x +:+ "-" +:+ String.substring 20 12 x.

End uuid.

(** [str(value)] where the source applies it: on a [uuid.UUID]. *)
Definition str_of_UUID (value : PyObj) : string :=
  match value with
  | PyUUID int => uuid.str int
  | _ => ""
  end.

(** ** Exceptions *)

Inductive PyExc : Type :=
| OperationalError (msg : string)   (* psycopg: no session, or session lost *)
| DatabaseError (msg : string)      (* psycopg: the server rejected a statement *)
| ProgrammingError (msg : string)   (* psycopg: misuse of the cursor *)
| ValidationError (model : string)  (* pydantic *)
| IndexError
| KeyError
| AttributeError (attr : string).

Inductive Outcome (A : Type) : Type :=
| Return (a : A)
| Raise (e : PyExc).
Arguments Return {A} a.
Arguments Raise {A} e.

#[global] Instance Outcome_ret : MRet Outcome := @Return.
#[global] Instance Outcome_bind : MBind Outcome := fun A B f x =>
  match x with
  | Return a => f a
  | Raise e => Raise e
  end.
#[global] Instance Outcome_fmap : FMap Outcome := fun A B f x =>
  match x with
  | Return a => Return (f a)
  | Raise e => Raise e
  end.

Definition is_Return {A} (x : Outcome A) : bool :=
  match x with
  | Return _ => true
  | Raise _ => false
  end.

(** ** Rows and row factories ([psycopg.rows]) *)

Inductive RowFactory : Type := tuple_row | dict_row.

Inductive Row : Type :=
| RTuple (values : list PyObj)
| RDict (fields : gmap string PyObj).

(** [dict(zip(names, values))]: a later duplicate of a name overwrites. *)
Definition dict_zip (names : list string) (values : list PyObj) : gmap string PyObj :=
  foldl (fun d kv => <[kv.1 := kv.2]> d) ∅ (zip names values).

Definition make_row (factory : RowFactory) (names : list string) (values : list PyObj) : Row :=
  match factory with
  | tuple_row => RTuple values
  | dict_row => RDict (dict_zip names values)
  end.

(** [row[i]] for an integer literal [i]: positional on a tuple; on a
    dictionary keyed by column names it is a key lookup that finds nothing. *)
Definition getitem (row : Row) (i : nat) : Outcome PyObj :=
  match row with
  | RTuple values =>
      match values !! i with
      | Some v => Return v
      | None => Raise IndexError
      end
  | RDict _ => Raise KeyError
  end.

(** [row.items()]: the pairs of a dictionary; a tuple has no such method. *)
Definition items (row : Row) : Outcome (list (string * PyObj)) :=
  match row with
  | RDict fields => Return (map_to_list fields)
  | RTuple _ => Raise (AttributeError "items")
  end.

(** ** The typed records of [utils/types.py] *)

(** What pydantic does with a field's input in its default (lax) mode:
    [None] when the input is rejected, the field's value otherwise.  Which
    inputs of another type a field converts is left to the instance; a [str]
    given to a [str] field is kept as it is. *)
Record Validators : Type := {
  validate_str : PyObj -> option string;
  validate_bool : PyObj -> option bool;
  validate_int : PyObj -> option Z;
  validate_str_str : forall s, validate_str (PyStr s) = Some s
}.

(** A field annotated [T | None]: [None] is accepted as it is, anything else
    goes to the validator of [T]. *)
Definition nullable {T} (validate : PyObj -> option T) (input : PyObj) : option (option T) :=
  match input with
  | PyNone => Some None
  | _ => Some <$> validate input
  end.

Definition dump_nullable {T} (dump : T -> PyObj) (field : option T) : PyObj :=
  match field with
  | Some v => dump v
  | None => PyNone
  end.

(** A model's constructor raises [ValidationError] when a field is rejected. *)
Definition validated {T} (model : string) (fields : option T) : Outcome T :=
  match fields with
  | Some v => Return v
  | None => Raise (ValidationError model)
  end.

Module TableSummary.
Record t : Type := make {
  schema_name : string;
  table_name : string;
  table_description : option string
}.

Definition init (V : Validators) (schema_name table_name table_description : PyObj) : Outcome t :=
  validated "TableSummary"
    (a ← validate_str V schema_name;
     b ← validate_str V table_name;
     c ← nullable (validate_str V) table_description;
     Some (make a b c)).

Definition model_dump (self : t) : PyObj :=
  PyDict (<["schema_name" := PyStr (schema_name self)]>
         (<["table_name" := PyStr (table_name self)]>
         (<["table_description" := dump_nullable PyStr (table_description self)]> ∅))).
End TableSummary.

Module DatabaseSummary.
Record t : Type := make {
  tables : list TableSummary.t
}.

Definition model_dump (self : t) : PyObj :=
  PyDict (<["tables" := PyList (TableSummary.model_dump <$> tables self)]> ∅).
End DatabaseSummary.

Module Column.
Record t : Type := make {
  column_name : string;
  data_type : string;
  is_nullable : bool;
  column_default : option string;
  character_maximum_length : option Z;
  numeric_precision : option Z;
  numeric_scale : option Z
}.

Definition init (V : Validators)
    (column_name data_type is_nullable column_default
     character_maximum_length numeric_precision numeric_scale : PyObj) : Outcome t :=
  validated "Column"
    (a ← validate_str V column_name;
     b ← validate_str V data_type;
     c ← validate_bool V is_nullable;
     d ← nullable (validate_str V) column_default;
     e ← nullable (validate_int V) character_maximum_length;
     f ← nullable (validate_int V) numeric_precision;
     g ← nullable (validate_int V) numeric_scale;
     Some (make a b c d e f g)).

Definition model_dump (self : t) : PyObj :=
  PyDict (<["column_name" := PyStr (column_name self)]>
         (<["data_type" := PyStr (data_type self)]>
         (<["is_nullable" := PyBool (is_nullable self)]>
         (<["column_default" := dump_nullable PyStr (column_default self)]>
         (<["character_maximum_length" := dump_nullable PyInt (character_maximum_length self)]>
         (<["numeric_precision" := dump_nullable PyInt (numeric_precision self)]>
         (<["numeric_scale" := dump_nullable PyInt (numeric_scale self)]> ∅))))))).
End Column.

Module Table.
Record t : Type := make {
  schema_name : string;
  table_name : string;
  columns : list Column.t
}.

(** [columns] receives [Column] instances, which pydantic keeps as they
    are; the two names go through the [str] validator. *)
Definition init (V : Validators) (schema_name table_name : PyObj) (columns : list Column.t) : Outcome t :=
  validated "Table"
    (a ← validate_str V schema_name;
     b ← validate_str V table_name;
     Some (make a b columns)).

Definition model_dump (self : t) : PyObj :=
  PyDict (<["schema_name" := PyStr (schema_name self)]>
         (<["table_name" := PyStr (table_name self)]>
         (<["columns" := PyList (Column.model_dump <$> columns self)]> ∅))).
End Table.

(** ** The database server and the driver ([psycopg]) *)

(** The keyword arguments of [psycopg.connect] that name the server. *)
Record ConnInfo : Type := {
  host : string;
  port : Z;
  user : string;
  password : string;
  dbname : string
}.

(** What the server answers to one statement. *)
Inductive PGresult : Type :=
| TuplesOk (names : list string) (tuples : list (list PyObj))
| CommandOk
| FatalError (msg : string).

(** A server is a deterministic machine over its state [DB]: it accepts or
    refuses a session, and answers a statement with its bound parameters,
    moving to a new state. *)
Record Server (DB : Type) : Type := {
  accepts : DB -> ConnInfo -> bool;
  run : DB -> string -> gmap string PyObj -> PGresult * DB
}.
Arguments accepts {DB} _ _ _.
Arguments run {DB} _ _ _ _.

(** A [psycopg.Connection] object: [pending] is the state reached inside the
    transaction in progress, if there is one. *)
Record Connection (DB : Type) : Type := {
  closed : bool;
  row_factory : RowFactory;
  pending : option DB
}.
Arguments closed {DB} _.
Arguments row_factory {DB} _.
Arguments pending {DB} _.

(** Connections are shared objects: the store holds them, [ConnRef] names
    them. *)
Abbreviation ConnRef := nat (only parsing).

Record World (DB : Type) : Type := {
  database : DB;
  connections : list (Connection DB)
}.
Arguments database {DB} _.
Arguments connections {DB} _.

(** A [psycopg.Cursor]: the rows of the last statement, if it gave any. *)
Record Cursor : Type := {
  connection : ConnRef;
  cursor_factory : RowFactory;
  result : option (list Row)
}.

(** [utils.types.AppContext] *)
Record AppContext : Type := {
  db_connection : ConnRef
}.

(** The fields of [utils.config] that [main.py] reads. *)
Record Config : Type := {
  app_name : string;
  db_host : string;
  db_port : Z;
  db_user : string;
  db_password : string;   (* [config.db_password.get_secret_value()] *)
  db_name : string
}.

(** Computations: they read and change the world, and return or raise. *)
Definition M (DB A : Type) : Type := World DB -> Outcome A * World DB.

#[global] Instance M_ret {DB} : MRet (M DB) := fun A a w => (Return a, w).
#[global] Instance M_bind {DB} : MBind (M DB) := fun A B f m w =>
  match m w with
  | (Return a, w') => f a w'
  | (Raise e, w') => (Raise e, w')
  end.

(** A computation that does not touch the world. *)
Definition pure {DB A} (x : Outcome A) : M DB A := fun w => (x, w).

Section Driver.
Context {DB : Type} (server : Server DB).

(** The object behind a reference; a reference that names nothing behaves
    as a closed connection. *)
Definition deref (w : World DB) (conn : ConnRef) : Connection DB :=
  default {| closed := true; row_factory := tuple_row; pending := None |}
          (connections w !! conn).

Definition assign (conn : ConnRef) (c : Connection DB) (w : World DB) : World DB :=
  {| database := database w; connections := <[conn := c]> (connections w) |}.

(** [psycopg.connect(host=..., ..., row_factory=...)]; without the keyword
    [row_factory] the driver uses [tuple_row]. *)
Definition psycopg_connect (info : ConnInfo) (factory : RowFactory) : M DB ConnRef :=
  fun w =>
    if accepts server (database w) info then
      (Return (length (connections w)),
       {| database := database w;
          connections := connections w
            ++ [{| closed := false; row_factory := factory; pending := None |}] |})
    else (Raise (OperationalError "connection failed"), w).

(** [Connection.close()]: nothing on a closed connection; otherwise the
    session ends and a transaction in progress is lost. *)
Definition Connection_close (conn : ConnRef) : M DB unit :=
  fun w =>
    let c := deref w conn in
    if closed c then (Return (), w)
    else (Return (),
          assign conn {| closed := true; row_factory := row_factory c; pending := None |} w).

(** [Connection.commit()]: the state of the transaction becomes the state
    of the database. *)
Definition Connection_commit (conn : ConnRef) : M DB unit :=
  fun w =>
    let c := deref w conn in
    match pending c with
    | Some db' =>
        (Return (),
         assign conn {| closed := closed c; row_factory := row_factory c; pending := None |}
           {| database := db'; connections := connections w |})
    | None => (Return (), w)
    end.

(** [Connection.rollback()] *)
Definition Connection_rollback (conn : ConnRef) : M DB unit :=
  fun w =>
    let c := deref w conn in
    (Return (),
     assign conn {| closed := closed c; row_factory := row_factory c; pending := None |} w).

(** [Connection.__exit__]: on a connection still open, commit (or roll
    back when the block raised), then close the connection. *)
Definition Connection_exit (conn : ConnRef) (raised : bool) : M DB unit :=
  fun w =>
    if closed (deref w conn) then (Return (), w)
    else
      ((if raised then Connection_rollback conn else Connection_commit conn);;
       Connection_close conn) w.

(** [with db_connection as conn: body]: [__enter__] returns the connection
    itself, [__exit__] runs on every way out of the block, and the block's
    own outcome is the statement's outcome. *)
Definition with_connection {A} (db_connection : ConnRef) (body : ConnRef -> M DB A) : M DB A :=
  fun w =>
    let (r, w1) := body db_connection w in
    let (_, w2) := Connection_exit db_connection (negb (is_Return r)) w1 in
    (r, w2).

(** [conn.cursor()] *)
Definition Connection_cursor (conn : ConnRef) : M DB Cursor :=
  fun w =>
    let c := deref w conn in
    if closed c then (Raise (OperationalError "the connection is closed"), w)
    else (Return {| connection := conn; cursor_factory := row_factory c; result := None |}, w).

(** [cursor.execute(query, params)]: the statement runs in the connection's
    transaction, which it opens if need be.  Its effect stays in [pending]
    until the connection commits: a text that ends its own transaction (a
    [COMMIT] among several statements sent at once) is outside this model,
    so nothing is concluded below about the database after a statement that
    the caller wrote. *)
Definition Cursor_execute (cursor : Cursor) (query : string) (params : gmap string PyObj)
    : M DB Cursor :=
  fun w =>
    let c := deref w (connection cursor) in
    if closed c then (Raise (OperationalError "the connection is closed"), w)
    else
      match run server (default (database w) (pending c)) query params with
      | (FatalError msg, _) => (Raise (DatabaseError msg), w)
      | (CommandOk, db') =>
          (Return {| connection := connection cursor;
                     cursor_factory := cursor_factory cursor;
                     result := None |},
           assign (connection cursor)
             {| closed := false; row_factory := row_factory c; pending := Some db' |} w)
      | (TuplesOk names tuples, db') =>
          (Return {| connection := connection cursor;
                     cursor_factory := cursor_factory cursor;
                     result := Some (make_row (cursor_factory cursor) names <$> tuples) |},
           assign (connection cursor)
             {| closed := false; row_factory := row_factory c; pending := Some db' |} w)
      end.

(** [cursor.fetchall()] *)
Definition Cursor_fetchall (cursor : Cursor) : M DB (list Row) :=
  pure (match result cursor with
        | Some rows => Return rows
        | None => Raise (ProgrammingError "the last operation didn't produce a result")
        end).

End Driver.

(** ** [src/main.py] *)

(** [try: body finally: final] *)
Definition try_finally {DB A} (body : M DB A) (final : M DB unit) : M DB A :=
  fun w =>
    let (r, w1) := body w in
    match final w1 with
    | (Return _, w2) => (r, w2)
    | (Raise e, w2) => (Raise e, w2)
    end.

(** The statement of [get_schema_description]. *)
Definition schema_query : string :=
"
                SELECT
                    n.nspname AS schema_name,
                    c.relname AS table_name,
                    d.description AS table_description
                FROM pg_catalog.pg_class c
                LEFT JOIN pg_catalog.pg_namespace n ON n.oid = c.relnamespace
                LEFT JOIN pg_catalog.pg_description d ON d.objoid = c.oid AND d.objsubid = 0
                WHERE
                    c.relkind = 'r'
                    AND n.nspname = %(schema)s
                ORDER BY schema_name, table_name;
            ".

(** The statement of [get_table_description]. *)
Definition columns_query : string :=
"
                SELECT
                    column_name,
                    data_type,
                    is_nullable,
                    column_default,
                    character_maximum_length,
                    numeric_precision,
                    numeric_scale
                FROM
                    information_schema.columns
                WHERE
                    table_schema = %(schema)s AND
                    table_name = %(table)s
                ORDER BY
                    ordinal_position;
            ".

(** The body of the inner loop of [query_database]: one field of one row. *)
Definition process_field (processed_row : gmap string PyObj) (item : string * PyObj)
    : gmap string PyObj :=
  let (key, value) := item in
  if isinstance_UUID value then <[key := PyStr (str_of_UUID value)]> processed_row
  else <[key := value]> processed_row.

(** The body of the outer loop: [processed_row] starts empty and receives
    every item of [row]. *)
Definition process_row (row : Row) : Outcome (gmap string PyObj) :=
  kvs ← items row;
  mret (foldl process_field ∅ kvs).

(** The outer loop, over the rows still to come: each row's [processed_row]
    is appended to [processed_rows], which starts empty. *)
Fixpoint process_loop (processed_rows : list (gmap string PyObj)) (rows : list Row)
    : Outcome (list (gmap string PyObj)) :=
  match rows with
  | [] => Return processed_rows
  | row :: rows =>
      processed_row ← process_row row;
      process_loop (processed_rows ++ [processed_row]) rows
  end.

Definition process_rows (rows : list Row) : Outcome (list (gmap string PyObj)) :=
  process_loop [] rows.

(** [TableSummary(schema_name=table[0], table_name=table[1],
    table_description=table[2])] *)
Definition summary_of_row (V : Validators) (table : Row) : Outcome TableSummary.t :=
  a ← getitem table 0;
  b ← getitem table 1;
  c ← getitem table 2;
  TableSummary.init V a b c.

(** [Column(column_name=column[0], ..., numeric_scale=column[6])] *)
Definition column_of_row (V : Validators) (column : Row) : Outcome Column.t :=
  a ← getitem column 0;
  b ← getitem column 1;
  c ← getitem column 2;
  d ← getitem column 3;
  e ← getitem column 4;
  f ← getitem column 5;
  g ← getitem column 6;
  Column.init V a b c d e f g.

Section Main.
Context {DB : Type} (server : Server DB).
Context (config : Config) (V : Validators) (yaml_dump : PyObj -> string).

(** [app_lifespan], as the context manager it is: the connection is made
    with [dict_row], the session runs where the source yields, and the
    connection is closed on the way out. *)
Definition app_lifespan {A} (session : AppContext -> M DB A) : M DB A :=
  db_connection ← psycopg_connect server
    {| host := db_host config;
       port := db_port config;
       user := db_user config;
       password := db_password config;
       dbname := db_name config |}
    dict_row;
  try_finally
    (session {| db_connection := db_connection |})
    (Connection_close db_connection).

Definition get_schema_description (schema : string) : M DB string :=
  db_connection ← psycopg_connect server
    {| host := db_host config;
       port := db_port config;
       user := db_user config;
       password := db_password config;
       dbname := db_name config |}
    tuple_row;
  tables ← with_connection db_connection (fun conn =>
    cursor ← Connection_cursor conn;
    cursor ← Cursor_execute server cursor schema_query {["schema" := PyStr schema]};
    Cursor_fetchall cursor);
  Connection_close db_connection;;
  tables ← pure (mapM (summary_of_row V) tables);
  let db_summary := DatabaseSummary.make tables in
  let yaml_summary := yaml_dump (DatabaseSummary.model_dump db_summary) in
  mret yaml_summary.

Definition get_table_description (schema table : string) : M DB string :=
  db_connection ← psycopg_connect server
    {| host := db_host config;
       port := db_port config;
       user := db_user config;
       password := db_password config;
       dbname := db_name config |}
    tuple_row;
  columns ← with_connection db_connection (fun conn =>
    cursor ← Connection_cursor conn;
    cursor ← Cursor_execute server cursor columns_query
               (<["schema" := PyStr schema]> {["table" := PyStr table]});
    Cursor_fetchall cursor);
  Connection_close db_connection;;
  columns ← pure (mapM (column_of_row V) columns);
  table_obj ← pure (Table.init V (PyStr schema) (PyStr table) columns);
  let yaml_summary := yaml_dump (Table.model_dump table_obj) in
  mret yaml_summary.

(** [ctx.request_context.lifespan_context] is the [AppContext] that
    [app_lifespan] yielded. *)
Definition query_database (query : string) (ctx : AppContext) : M DB string :=
  let db_connection := db_connection ctx in
  rows ← with_connection db_connection (fun conn =>
    cursor ← Connection_cursor conn;
    cursor ← Cursor_execute server cursor query ∅;
    Cursor_fetchall cursor);
  processed_rows ← pure (process_rows rows);
  let yaml_summary := yaml_dump (PyList (PyDict <$> processed_rows)) in
  mret yaml_summary.

(** A session of the ad-hoc query tool: the calls come one after the other
    inside [app_lifespan]; a call that raises is reported to the caller and
    the session goes on. *)
Definition attempt {A} (call : M DB A) : M DB (Outcome A) :=
  fun w => let (r, w') := call w in (Return r, w').

Definition query_session (queries : list string) : M DB (list (Outcome string)) :=
  app_lifespan (fun ctx => mapM (fun query => attempt (query_database query ctx)) queries).

(** Two names for what the three entry points repeat: the keyword
    arguments of every [psycopg.connect], and the body of every
    [with db_connection as conn] block. *)
Definition conninfo : ConnInfo :=
  {| host := db_host config;
     port := db_port config;
     user := db_user config;
     password := db_password config;
     dbname := db_name config |}.

Definition fetch (query : string) (params : gmap string PyObj) (conn : ConnRef)
    : M DB (list Row) :=
  cursor ← Connection_cursor conn;
  cursor ← Cursor_execute server cursor query params;
  Cursor_fetchall cursor.

End Main.

(** The three prompts: the arguments are pasted between backquotes. *)
Definition prompt_table_description (schema table : string) : string :=
  "Please provide a description of the table `" +:+ table
    +:+ "` in the schema `" +:+ schema +:+ "`".

Definition prompt_schema_description (schema : string) : string :=
  "Please provide a description of the schema `" +:+ schema +:+ "`".

Definition prompt_query_database (schema table : string) : string :=
  "Please bring me the data from the table `" +:+ table
    +:+ "` in the schema `" +:+ schema +:+ "`".

(** A connection once it is closed, and the per-request connection of a
    catalog reader once its request is over. *)
Definition closed_of {DB} (c : Connection DB) : Connection DB :=
  {| closed := true; row_factory := row_factory c; pending := None |}.

Definition spent {DB} : Connection DB :=
  {| closed := true; row_factory := tuple_row; pending := None |}.

(** [c in s] for a character [c]. *)
Fixpoint mentions (c : ascii) (s : string) : bool :=
  match s with
  | EmptyString => false
  | String x s' => if decide (x = c) then true else mentions c s'
  end.

(** The normalisation of one value in the specification's words: a
    unique-identifier value becomes its canonical text, every other value
    passes through unchanged. *)
Definition normalize_spec (value : PyObj) : PyObj :=
  match value with
  | PyUUID int => PyStr (uuid.str int)
  | other => other
  end.

(** The same on a row and on a sequence of rows: field by field, row by
    row. *)
Definition normalize_row_spec (row : gmap string PyObj) : gmap string PyObj :=
  normalize_spec <$> row.

Definition normalize_rows_spec (rows : list (gmap string PyObj)) : list (gmap string PyObj) :=
  normalize_row_spec <$> rows.

(** The row factory of every connection of the store, in the order the
    connections were made, and the computations that leave them as they
    are. *)
Definition factories {DB} (w : World DB) : list RowFactory :=
  row_factory <$> connections w.

Definition keeps_factories {DB A} (m : M DB A) : Prop :=
  forall w, factories (m w).2 = factories w.

(** ** A database to run the entry points on

    The schema [public] of the specification's scenario: one table,
    [users(id uuid, name text, age int)], commented, with one row. *)
Module Scenario.

Record Catalog : Type := {
  comment : option string;           (* the comment on [public.users] *)
  users : list (list PyObj)          (* the rows of [public.users] *)
}.

Definition names_of_users : list string := ["id"; "name"; "age"].

Definition is_public (params : gmap string PyObj) : bool :=
  match params !! "schema" with
  | Some (PyStr s) => bool_decide (s = "public")
  | _ => false
  end.

Definition is_users (params : gmap string PyObj) : bool :=
  match params !! "table" with
  | Some (PyStr s) => bool_decide (s = "users")
  | _ => false
  end.

Definition names_of_columns : list string :=
  ["column_name"; "data_type"; "is_nullable"; "column_default";
   "character_maximum_length"; "numeric_precision"; "numeric_scale"].

Definition columns_of_users : list (list PyObj) :=
  [ [PyStr "id"; PyStr "uuid"; PyStr "NO"; PyNone; PyNone; PyNone; PyNone];
    [PyStr "name"; PyStr "text"; PyStr "YES"; PyNone; PyNone; PyNone; PyNone];
    [PyStr "age"; PyStr "integer"; PyStr "YES"; PyNone; PyNone; PyInt 32; PyInt 0] ].

Definition answer (db : Catalog) (query : string) (params : gmap string PyObj)
    : PGresult * Catalog :=
  if bool_decide (query = schema_query) then
    (TuplesOk ["schema_name"; "table_name"; "table_description"]
       (if is_public params
        then [[PyStr "public"; PyStr "users"; dump_nullable PyStr (comment db)]]
        else []),
     db)
  else if bool_decide (query = columns_query) then
    (TuplesOk names_of_columns
       (if is_public params && is_users params then columns_of_users else []),
     db)
  else if bool_decide (query = "SELECT id FROM users LIMIT 1") then
    (TuplesOk ["id"] (take 1 <$> take 1 (users db)), db)
  else if bool_decide (query = "SELECT * FROM users") then
    (TuplesOk names_of_users (users db), db)
  else if bool_decide (query = "DELETE FROM users") then
    (CommandOk, {| comment := comment db; users := [] |})
  else
    (FatalError "syntax error", db).

Definition server : Server Catalog := {|
  accepts := fun _ info => bool_decide (dbname info = "app");
  run := answer
|}.

Definition config : Config := {|
  app_name := "postgres-mcp";
  db_host := "localhost";
  db_port := 5432;
  db_user := "postgres";
  db_password := "secret";
  db_name := "app"
|}.

(** pydantic's lax conversions on the inputs the catalog gives: a [str] for
    a [str] field, [bool], 0, 1 and the yes/no words for a [bool] field, an
    [int] for an [int] field. *)
Definition lax_str (input : PyObj) : option string :=
  match input with
  | PyStr s => Some s
  | _ => None
  end.

Definition lax_bool (input : PyObj) : option bool :=
  match input with
  | PyBool b => Some b
  | PyInt 0 => Some false
  | PyInt 1 => Some true
  | PyStr s =>
      if bool_decide (s ∈ ["YES"; "yes"; "true"; "1"]) then Some true
      else if bool_decide (s ∈ ["NO"; "no"; "false"; "0"]) then Some false
      else None
  | _ => None
  end.

Definition lax_int (input : PyObj) : option Z :=
  match input with
  | PyInt z => Some z
  | _ => None
  end.

Definition lax : Validators := {|
  validate_str := lax_str;
  validate_bool := lax_bool;
  validate_int := lax_int;
  validate_str_str := fun s => eq_refl
|}.

(** A printer to run the examples with, where the source calls
    [yaml.dump]: flow style, strings bare, nesting cut at [depth]. *)
Fixpoint flow (depth : nat) (o : PyObj) : string :=
  match depth with
  | O => "..."
  | S d =>
      match o with
      | PyNone => "null"
      | PyBool true => "true"
      | PyBool false => "false"
      | PyInt z => pretty z
      | PyStr s => s
      | PyUUID int => "!UUID " +:+ uuid.str int
      | PyOpaque type_name repr => "!" +:+ type_name +:+ " " +:+ repr
      | PyList items => "[" +:+ String.concat ", " (flow d <$> items) +:+ "]"
      | PyDict entries =>
          "{" +:+ String.concat ", "
                    ((fun kv => kv.1 +:+ ": " +:+ flow d kv.2) <$> map_to_list entries)
              +:+ "}"
      end
  end.

Definition dump : PyObj -> string := flow 8.

Definition a_uuid : N := 0xa1b2c3d4e5f60718293a4b5c6d7e8f90.

Definition catalog : Catalog := {|
  comment := Some "Application users";
  users := [[PyUUID a_uuid; PyStr "Ada"; PyInt 36]]
|}.

Definition world : World Catalog := {| database := catalog; connections := [] |}.

(** The world and the context in which [app_lifespan] starts the session:
    the session connection is the first of the store. *)
Definition session_world : World Catalog := {|
  database := catalog;
  connections := [{| closed := false; row_factory := dict_row; pending := None |}]
|}.

Definition session_ctx : AppContext := {| db_connection := 0 |}.

(** What [get_table_description] returns for [public.users] with this
    printer. *)
Definition description_of_users : string :=
  dump (Table.model_dump (Table.make "public" "users"
    [ Column.make "id" "uuid" false None None None None;
      Column.make "name" "text" true None None None None;
      Column.make "age" "integer" true None None (Some 32%Z) (Some 0%Z) ])).

(** Three more servers and a configuration, to run the error paths: a
    configuration naming a database the server does not have; a server that
    rejects every statement; a server that answers every statement with one
    row of one field; a server that answers the two catalog statements as
    [server] does and rejects every other one. *)
Definition wrong_config : Config := {|
  app_name := "postgres-mcp";
  db_host := "localhost";
  db_port := 5432;
  db_user := "postgres";
  db_password := "secret";
  db_name := "nowhere"
|}.

Definition rejecting : Server Catalog := {|
  accepts := fun _ info => bool_decide (dbname info = "app");
  run := fun db _ _ => (FatalError "permission denied", db)
|}.

Definition short_rows : Server Catalog := {|
  accepts := fun _ info => bool_decide (dbname info = "app");
  run := fun db _ _ => (TuplesOk ["nspname"] [[PyStr "public"]], db)
|}.

(** A server whose schema has three tables, to see the order of the rows:
    it answers every statement with their three catalog rows, in the
    catalog's order. *)
Definition rows_of_three_tables : list (list PyObj) :=
  [ [PyStr "public"; PyStr "orders"; PyNone];
    [PyStr "public"; PyStr "products"; PyStr "What is sold"];
    [PyStr "public"; PyStr "users"; PyStr "Application users"] ].

Definition three_tables : Server Catalog := {|
  accepts := fun _ info => bool_decide (dbname info = "app");
  run := fun db _ _ =>
    (TuplesOk ["schema_name"; "table_name"; "table_description"] rows_of_three_tables, db)
|}.

Definition catalog_only : Server Catalog := {|
  accepts := fun _ info => bool_decide (dbname info = "app");
  run := fun db query params =>
    if bool_decide (query = schema_query) || bool_decide (query = columns_query)
    then answer db query params
    else (FatalError "permission denied", db)
|}.

End Scenario.

(** * Properties *)

(** ** The exception monad and list comprehensions *)

Lemma mapM_Return {A B} (f : A -> Outcome B) (l : list A) (k : list B) :
  mapM f l = Return k <-> Forall2 (fun x y => f x = Return y) l k.
Proof.
  split.
  - revert k. induction l as [|x l IH]; intros k; simpl.
    + intros [= <-]. constructor.
    + unfold mbind, Outcome_bind.
      destruct (f x) as [y|e] eqn:Hy; [|done].
      destruct (mapM f l) as [k'|e]; [|done].
      intros [= <-]. constructor; [done|]. by apply IH.
  - induction 1 as [|x y l k Hy _ IH]; [done|].
    change (mapM f (x :: l)) with (y ← f x; k ← mapM f l; mret (y :: k)).
    rewrite Hy; simpl. by rewrite IH.
Qed.

Lemma mapM_nil_Return {A B} (f : A -> Outcome B) : mapM f [] = Return [].
Proof. done. Qed.

(** ** The store *)

Section Store.
Context {DB : Type}.
Implicit Types (w : World DB) (conn : ConnRef) (c : Connection DB).

Lemma deref_assign w conn c :
  conn < length (connections w) -> deref (assign conn c w) conn = c.
Proof. intros Hlt. unfold deref, assign; simpl. by rewrite list_lookup_insert_eq. Qed.

Lemma deref_open w conn :
  closed (deref w conn) = false -> conn < length (connections w).
Proof.
  unfold deref. destruct (connections w !! conn) eqn:E; simpl; [|done].
  intros _. by eapply lookup_lt_Some.
Qed.

Lemma length_assign w conn c :
  length (connections (assign conn c w)) = length (connections w).
Proof. unfold assign; simpl. apply length_insert. Qed.

Lemma deref_fresh (db : DB) (conns : list (Connection DB)) c :
  deref {| database := db; connections := conns ++ [c] |} (length conns) = c.
Proof. unfold deref; simpl. by rewrite list_lookup_middle. Qed.

End Store.

(** ** The driver *)

Section DriverFacts.
Context {DB : Type} (server : Server DB).
Implicit Types (w : World DB) (conn : ConnRef).

Lemma Connection_close_outcome conn w : (Connection_close conn w).1 = Return ().
Proof. unfold Connection_close. by destruct (closed (deref w conn)). Qed.

Lemma Connection_close_closes conn w : closed (deref (Connection_close conn w).2 conn) = true.
Proof.
  unfold Connection_close. destruct (closed (deref w conn)) eqn:Hc; simpl; [done|].
  by rewrite deref_assign by by apply deref_open.
Qed.

Lemma Connection_close_closed conn w :
  closed (deref w conn) = true -> Connection_close conn w = (Return (), w).
Proof. unfold Connection_close. by intros ->. Qed.

Lemma Connection_close_database conn w : database (Connection_close conn w).2 = database w.
Proof. unfold Connection_close. by destruct (closed (deref w conn)). Qed.

(** Leaving a [with] block closes the connection, whatever the block did. *)
Lemma Connection_exit_closes conn raised w :
  closed (deref (Connection_exit conn raised w).2 conn) = true.
Proof.
  unfold Connection_exit.
  destruct (closed (deref w conn)) eqn:Hc; simpl; [done|].
  unfold mbind, M_bind.
  destruct ((if raised then Connection_rollback conn else Connection_commit conn) w)
    as [[[]|e] w1] eqn:Hstep.
  - apply Connection_close_closes.
  - destruct raised; unfold Connection_rollback, Connection_commit in Hstep;
      [|destruct (pending (deref w conn))]; done.
Qed.

Lemma with_connection_outcome {A} conn (body : ConnRef -> M DB A) w :
  (with_connection conn body w).1 = (body conn w).1.
Proof.
  unfold with_connection. destruct (body conn w) as [r w1].
  by destruct (Connection_exit conn _ w1).
Qed.

Lemma with_connection_closes {A} conn (body : ConnRef -> M DB A) w :
  closed (deref (with_connection conn body w).2 conn) = true.
Proof.
  unfold with_connection. destruct (body conn w) as [r w1].
  pose proof (Connection_exit_closes conn (negb (is_Return r)) w1) as Hx.
  by destruct (Connection_exit conn _ w1).
Qed.

Lemma fetch_outcome query params conn w :
  (fetch server query params conn w).1 =
    if closed (deref w conn) then Raise (OperationalError "the connection is closed")
    else match (run server (default (database w) (pending (deref w conn))) query params).1 with
         | TuplesOk names tuples =>
             Return (make_row (row_factory (deref w conn)) names <$> tuples)
         | CommandOk => Raise (ProgrammingError "the last operation didn't produce a result")
         | FatalError msg => Raise (DatabaseError msg)
         end.
Proof.
  unfold fetch, mbind, M_bind, Connection_cursor.
  destruct (closed (deref w conn)) eqn:Hc; [done|].
  unfold Cursor_execute; simpl. rewrite Hc.
  by destruct (run server _ query params) as [[names tuples| |msg] db'].
Qed.

End DriverFacts.

(** ** A connection keeps the row factory it was made with *)

Section Factories.
Context {DB : Type} (server : Server DB).
Implicit Types (w : World DB) (conn : ConnRef).

Lemma row_factory_deref w conn :
  row_factory (deref w conn) = default tuple_row (factories w !! conn).
Proof.
  unfold deref, factories. rewrite list_lookup_fmap.
  by destruct (connections w !! conn).
Qed.

Lemma factories_assign w conn c :
  row_factory c = row_factory (deref w conn) ->
  factories (assign conn c w) = factories w.
Proof.
  intros Hc. unfold factories, assign; simpl. rewrite list_fmap_insert.
  destruct (connections w !! conn) as [c0|] eqn:E.
  - apply list_insert_id. rewrite list_lookup_fmap, E; simpl.
    f_equal. rewrite Hc. unfold deref. by rewrite E.
  - apply list_insert_ge. rewrite length_fmap. by apply lookup_ge_None.
Qed.

Lemma keeps_ret {A} (a : A) : keeps_factories (mret a : M DB A).
Proof. done. Qed.

Lemma keeps_pure {A} (x : Outcome A) : keeps_factories (pure x : M DB A).
Proof. done. Qed.

Lemma keeps_bind {A B} (m : M DB A) (f : A -> M DB B) :
  keeps_factories m -> (forall a, keeps_factories (f a)) -> keeps_factories (m ≫= f).
Proof.
  intros Hm Hf w. unfold mbind, M_bind. specialize (Hm w).
  destruct (m w) as [[a|e] w1]; simpl in *; [|done].
  by rewrite Hf.
Qed.

Lemma keeps_close conn : keeps_factories (DB:=DB) (Connection_close conn).
Proof.
  intros w. unfold Connection_close.
  destruct (closed (deref w conn)); simpl; [done|]. by apply factories_assign.
Qed.

Lemma keeps_commit conn : keeps_factories (DB:=DB) (Connection_commit conn).
Proof.
  intros w. unfold Connection_commit.
  destruct (pending (deref w conn)); simpl; [|done].
  by rewrite factories_assign.
Qed.

Lemma keeps_rollback conn : keeps_factories (DB:=DB) (Connection_rollback conn).
Proof. intros w. unfold Connection_rollback; simpl. by apply factories_assign. Qed.

Lemma keeps_exit conn raised : keeps_factories (DB:=DB) (Connection_exit conn raised).
Proof.
  intros w. unfold Connection_exit.
  destruct (closed (deref w conn)); simpl; [done|].
  apply keeps_bind; [|intros _; apply keeps_close].
  destruct raised; [apply keeps_rollback|apply keeps_commit].
Qed.

Lemma keeps_with {A} conn (body : ConnRef -> M DB A) :
  keeps_factories (body conn) -> keeps_factories (with_connection conn body).
Proof.
  intros Hb w. unfold with_connection. specialize (Hb w).
  destruct (body conn w) as [r w1]; simpl in *.
  pose proof (keeps_exit conn (negb (is_Return r)) w1) as Hx.
  destruct (Connection_exit conn _ w1); simpl in *. congruence.
Qed.

Lemma keeps_cursor conn : keeps_factories (DB:=DB) (Connection_cursor conn).
Proof. intros w. unfold Connection_cursor. by destruct (closed (deref w conn)). Qed.

Lemma keeps_execute cursor query params :
  keeps_factories (Cursor_execute server cursor query params).
Proof.
  intros w. unfold Cursor_execute.
  destruct (closed (deref w (connection cursor))); simpl; [done|].
  destruct (run server _ query params) as [[names tuples| |msg] db']; simpl;
    try done; by apply factories_assign.
Qed.

Lemma keeps_fetch query params conn : keeps_factories (fetch server query params conn).
Proof.
  unfold fetch. apply keeps_bind; [apply keeps_cursor|]. intros cursor.
  apply keeps_bind; [apply keeps_execute|]. intros cursor'. apply keeps_pure.
Qed.

End Factories.

(** ** The result normaliser *)

Lemma process_field_insert (processed_row : gmap string PyObj) key value :
  process_field processed_row (key, value) = <[key := normalize_spec value]> processed_row.
Proof. by destruct value. Qed.

(** Filling [processed_row] from items with distinct keys: every item is
    there, normalised, and what was there under another key stays. *)
Lemma foldl_process_field (kvs : list (string * PyObj)) (processed_row : gmap string PyObj) :
  NoDup kvs.*1 ->
  foldl process_field processed_row kvs
    = (normalize_spec <$> (list_to_map kvs : gmap string PyObj)) ∪ processed_row.
Proof.
  revert processed_row.
  induction kvs as [|[key value] kvs IH]; intros processed_row.
  - intros _; simpl. by rewrite fmap_empty, (left_id_L ∅ (∪)).
  - rewrite fmap_cons, NoDup_cons; intros [Hkey Hkvs].
    change (foldl process_field processed_row ((key, value) :: kvs))
      with (foldl process_field (process_field processed_row (key, value)) kvs).
    rewrite process_field_insert, IH by done.
    cbn [list_to_map foldr uncurry]. rewrite fmap_insert, <- insert_union_l; simpl in *.
    symmetry. apply insert_union_r. rewrite lookup_fmap.
    by rewrite (not_elem_of_list_to_map_1 _ _ Hkey).
Qed.

Lemma process_row_dict (fields : gmap string PyObj) :
  process_row (RDict fields) = Return (normalize_spec <$> fields).
Proof.
  unfold process_row; simpl. f_equal. unfold normalize_row_spec.
  rewrite foldl_process_field by apply NoDup_fst_map_to_list.
  by rewrite list_to_map_to_list, (right_id_L ∅ (∪)).
Qed.

Lemma process_row_tuple values :
  process_row (RTuple values) = Raise (AttributeError "items").
Proof. done. Qed.

Lemma process_loop_dicts (rows processed_rows : list (gmap string PyObj)) :
  process_loop processed_rows (RDict <$> rows)
    = Return (processed_rows ++ normalize_rows_spec rows).
Proof.
  revert processed_rows.
  induction rows as [|row rows IH]; intros processed_rows.
  - simpl. by rewrite (right_id_L [] (++)).
  - rewrite fmap_cons. cbn [process_loop]. rewrite process_row_dict.
    cbn [mbind Outcome_bind]. rewrite IH. by rewrite <- (assoc_L (++)).
Qed.

Lemma process_rows_dicts (rows : list (gmap string PyObj)) :
  process_rows (RDict <$> rows) = Return (normalize_rows_spec rows).
Proof. apply (process_loop_dicts rows []). Qed.

Lemma normalize_row_spec_lookup (row : gmap string PyObj) key :
  normalize_row_spec row !! key =
    match row !! key with
    | Some (PyUUID int) => Some (PyStr (uuid.str int))
    | other => other
    end.
Proof. unfold normalize_row_spec. rewrite lookup_fmap. by destruct (row !! key) as [[]|]. Qed.

Lemma make_row_dict names (tuples : list (list PyObj)) :
  make_row dict_row names <$> tuples = RDict <$> (dict_zip names <$> tuples).
Proof. by rewrite <- list_fmap_compose. Qed.

(** ** Sequencing *)

Section Bind.
Context {DB : Type}.

Lemma bind_outcome {A B} (m : M DB A) (f : A -> M DB B) w :
  ((m ≫= f) w).1 =
    match (m w).1 with
    | Return a => (f a (m w).2).1
    | Raise e => Raise e
    end.
Proof. unfold mbind, M_bind. by destruct (m w) as [[a|e] w1]. Qed.

Lemma bind_world {A B} (m : M DB A) (f : A -> M DB B) w :
  ((m ≫= f) w).2 =
    match (m w).1 with
    | Return a => (f a (m w).2).2
    | Raise e => (m w).2
    end.
Proof. unfold mbind, M_bind. by destruct (m w) as [[a|e] w1]. Qed.
End Bind.

(** ** What the entry points return *)

Section EntryPoints.
Context {DB : Type} (server : Server DB).
Context (config : Config) (V : Validators) (yaml_dump : PyObj -> string).
Implicit Types (w : World DB).

Local Abbreviation conninfo := (conninfo config).

(** The world in which a per-request or session connection has just been
    made. *)
Lemma psycopg_connect_accepted factory w :
  accepts server (database w) conninfo = true ->
  psycopg_connect server conninfo factory w =
    (Return (length (connections w)),
     {| database := database w;
        connections := connections w
          ++ [{| closed := false; row_factory := factory; pending := None |}] |}).
Proof. unfold psycopg_connect. by intros ->. Qed.

Lemma psycopg_connect_refused factory w :
  accepts server (database w) conninfo = false ->
  psycopg_connect server conninfo factory w =
    (Raise (OperationalError "connection failed"), w).
Proof. unfold psycopg_connect. by intros ->. Qed.

(** What a catalog reader fetches: the answer to its statement in the
    current state of the database, as tuples. *)
Lemma fetch_fresh_outcome query params w :
  (with_connection (length (connections w)) (fetch server query params)
     {| database := database w;
        connections := connections w
          ++ [{| closed := false; row_factory := tuple_row; pending := None |}] |}).1 =
    match (run server (database w) query params).1 with
    | TuplesOk names tuples => Return (RTuple <$> tuples)
    | CommandOk => Raise (ProgrammingError "the last operation didn't produce a result")
    | FatalError msg => Raise (DatabaseError msg)
    end.
Proof.
  rewrite with_connection_outcome, fetch_outcome, deref_fresh; simpl.
  by destruct (run server (database w) query params).1.
Qed.

Lemma get_schema_description_outcome schema w :
  (get_schema_description server config V yaml_dump schema w).1 =
    if accepts server (database w) conninfo then
      match (run server (database w) schema_query {["schema" := PyStr schema]}).1 with
      | TuplesOk names tuples =>
          tables ← mapM (summary_of_row V) (RTuple <$> tuples);
          Return (yaml_dump (DatabaseSummary.model_dump (DatabaseSummary.make tables)))
      | CommandOk => Raise (ProgrammingError "the last operation didn't produce a result")
      | FatalError msg => Raise (DatabaseError msg)
      end
    else Raise (OperationalError "connection failed").
Proof.
  unfold get_schema_description. fold conninfo.
  fold (fetch server schema_query {["schema" := PyStr schema]}).
  rewrite bind_outcome.
  destruct (accepts server (database w) conninfo) eqn:Ha.
  - rewrite psycopg_connect_accepted by done; simpl.
    rewrite bind_outcome, fetch_fresh_outcome.
    destruct (run server (database w) schema_query _).1 as [names tuples| |msg];
      [|done..].
    rewrite bind_outcome, Connection_close_outcome, bind_outcome; simpl.
    by destruct (mapM _ _).
  - by rewrite psycopg_connect_refused.
Qed.

Lemma get_table_description_outcome schema table w :
  (get_table_description server config V yaml_dump schema table w).1 =
    if accepts server (database w) conninfo then
      match (run server (database w) columns_query
               (<["schema" := PyStr schema]> {["table" := PyStr table]})).1 with
      | TuplesOk names tuples =>
          columns ← mapM (column_of_row V) (RTuple <$> tuples);
          Return (yaml_dump (Table.model_dump (Table.make schema table columns)))
      | CommandOk => Raise (ProgrammingError "the last operation didn't produce a result")
      | FatalError msg => Raise (DatabaseError msg)
      end
    else Raise (OperationalError "connection failed").
Proof.
  unfold get_table_description. fold conninfo.
  fold (fetch server columns_query (<["schema" := PyStr schema]> {["table" := PyStr table]})).
  rewrite bind_outcome.
  destruct (accepts server (database w) conninfo) eqn:Ha.
  - rewrite psycopg_connect_accepted by done; simpl.
    rewrite bind_outcome, fetch_fresh_outcome.
    destruct (run server (database w) columns_query _).1 as [names tuples| |msg];
      [|done..].
    rewrite bind_outcome, Connection_close_outcome, bind_outcome; simpl.
    destruct (mapM _ _) as [columns|e]; simpl; [|done].
    rewrite bind_outcome; simpl.
    unfold Table.init. by rewrite !validate_str_str.
  - by rewrite psycopg_connect_refused.
Qed.

Lemma query_database_outcome query ctx w :
  (query_database server yaml_dump query ctx w).1 =
    let c := deref w (db_connection ctx) in
    if closed c then Raise (OperationalError "the connection is closed")
    else
      match (run server (default (database w) (pending c)) query ∅).1 with
      | TuplesOk names tuples =>
          processed_rows ← process_rows (make_row (row_factory c) names <$> tuples);
          Return (yaml_dump (PyList (PyDict <$> processed_rows)))
      | CommandOk => Raise (ProgrammingError "the last operation didn't produce a result")
      | FatalError msg => Raise (DatabaseError msg)
      end.
Proof.
  unfold query_database. fold (fetch server query ∅).
  rewrite bind_outcome, with_connection_outcome, fetch_outcome; simpl.
  destruct (closed (deref w (db_connection ctx))); [done|].
  destruct (run server _ query ∅).1 as [names tuples| |msg]; [|done..].
  rewrite bind_outcome; simpl. by destruct (process_rows _).
Qed.

(** Whatever the call did, it leaves the session connection closed. *)
Lemma query_database_closes query ctx w :
  closed (deref (query_database server yaml_dump query ctx w).2 (db_connection ctx)) = true.
Proof.
  unfold query_database. fold (fetch server query ∅).
  rewrite bind_world.
  pose proof (with_connection_closes (db_connection ctx) (fetch server query ∅) w) as Hc.
  destruct (with_connection _ _ w).1 as [rows|e]; [|done].
  rewrite bind_world; simpl. by destruct (process_rows rows).
Qed.

End EntryPoints.

(** ** What the entry points leave in the store *)

Section Worlds.
Context {DB : Type} (server : Server DB).
Context (config : Config) (V : Validators) (yaml_dump : PyObj -> string).
Implicit Types (w : World DB).

Local Abbreviation conninfo := (conninfo config).

Lemma keeps_try_finally {A} (body : M DB A) (final : M DB unit) :
  keeps_factories body -> keeps_factories final -> keeps_factories (try_finally body final).
Proof.
  intros Hb Hf w. unfold try_finally. specialize (Hb w).
  destruct (body w) as [r w1]; simpl in *.
  specialize (Hf w1). destruct (final w1) as [[[]|e] w2]; simpl in *; congruence.
Qed.

Lemma keeps_attempt {A} (call : M DB A) :
  keeps_factories call -> keeps_factories (attempt call).
Proof. intros Hc w. unfold attempt. specialize (Hc w). by destruct (call w). Qed.

Lemma keeps_mapM {A B} (f : A -> M DB B) (l : list A) :
  (forall a, keeps_factories (f a)) -> keeps_factories (mapM f l).
Proof.
  intros Hf. induction l as [|a l IH]; [done|].
  change (mapM f (a :: l)) with (y ← f a; k ← mapM f l; mret (y :: k)).
  apply keeps_bind; [done|]. intros y.
  apply keeps_bind; [done|]. intros k. apply keeps_ret.
Qed.

Lemma keeps_query_database query ctx :
  keeps_factories (query_database server yaml_dump query ctx).
Proof.
  unfold query_database.
  apply keeps_bind; [apply keeps_with, keeps_fetch|]. intros rows.
  apply keeps_bind; [apply keeps_pure|]. intros processed_rows. apply keeps_ret.
Qed.

(** After a connection has been made, the store has one more connection,
    with the row factory that was asked for. *)
Lemma factories_connect factory w :
  accepts server (database w) conninfo = true ->
  factories (psycopg_connect server conninfo factory w).2 = factories w ++ [factory].
Proof.
  intros Ha. rewrite psycopg_connect_accepted by done.
  unfold factories; simpl. by rewrite fmap_app.
Qed.

Lemma factories_after_connect {A} factory (rest : ConnRef -> M DB A) w :
  accepts server (database w) conninfo = true ->
  (forall conn, keeps_factories (rest conn)) ->
  factories ((psycopg_connect server conninfo factory ≫= rest) w).2
    = factories w ++ [factory].
Proof.
  intros Ha Hrest. rewrite bind_world.
  pose proof (factories_connect factory w Ha) as Hc.
  rewrite psycopg_connect_accepted in * by done; simpl in *.
  by rewrite Hrest.
Qed.

Lemma factories_app_lifespan {A} (session : AppContext -> M DB A) w :
  accepts server (database w) conninfo = true ->
  (forall ctx, keeps_factories (session ctx)) ->
  factories (app_lifespan server config session w).2 = factories w ++ [dict_row].
Proof.
  intros Ha Hs. unfold app_lifespan. apply factories_after_connect; [done|].
  intros conn. apply keeps_try_finally; [done|apply keeps_close].
Qed.

Lemma factories_get_schema_description schema w :
  accepts server (database w) conninfo = true ->
  factories (get_schema_description server config V yaml_dump schema w).2
    = factories w ++ [tuple_row].
Proof.
  intros Ha. unfold get_schema_description. apply factories_after_connect; [done|].
  intros conn.
  apply keeps_bind; [apply keeps_with, keeps_fetch|]. intros rows.
  apply keeps_bind; [apply keeps_close|]. intros _.
  apply keeps_bind; [apply keeps_pure|]. intros tables. apply keeps_ret.
Qed.

Lemma factories_get_table_description schema table w :
  accepts server (database w) conninfo = true ->
  factories (get_table_description server config V yaml_dump schema table w).2
    = factories w ++ [tuple_row].
Proof.
  intros Ha. unfold get_table_description. apply factories_after_connect; [done|].
  intros conn.
  apply keeps_bind; [apply keeps_with, keeps_fetch|]. intros rows.
  apply keeps_bind; [apply keeps_close|]. intros _.
  apply keeps_bind; [apply keeps_pure|]. intros columns.
  apply keeps_bind; [apply keeps_pure|]. intros table_obj. apply keeps_ret.
Qed.

End Worlds.

(** ** The outer loop of the normaliser *)

Lemma process_loop_length rows processed_rows result :
  process_loop processed_rows rows = Return result ->
  length result = length processed_rows + length rows.
Proof.
  revert processed_rows.
  induction rows as [|row rows IH]; intros processed_rows; simpl.
  - intros [= <-]. lia.
  - destruct (process_row row) as [processed_row|e]; [|done]; simpl.
    intros Hr. rewrite (IH _ Hr), length_app; simpl. lia.
Qed.

Lemma process_rows_length rows result :
  process_rows rows = Return result -> length result = length rows.
Proof. intros Hr. by rewrite (process_loop_length _ _ _ Hr). Qed.

(** Read backwards: when the loop returns, every row was a dictionary and
    the result is what was there followed by the normalised rows. *)
Lemma process_loop_Return rows acc result :
  process_loop acc rows = Return result ->
  exists dicts, rows = RDict <$> dicts /\ result = acc ++ normalize_rows_spec dicts.
Proof.
  revert acc. induction rows as [|row rows IH]; intros acc; simpl.
  - intros [= <-]. exists []. split; [done|]. symmetry. apply (right_id_L [] (++)).
  - destruct row as [values|fields]; [done|].
    rewrite process_row_dict; simpl. intros Hr.
    destruct (IH _ Hr) as (dicts & -> & ->).
    exists (fields :: dicts). by rewrite <- (assoc_L (++)).
Qed.

Lemma process_rows_Return rows processed_rows :
  process_rows rows = Return processed_rows ->
  exists dicts, rows = RDict <$> dicts /\ processed_rows = normalize_rows_spec dicts.
Proof. apply process_loop_Return. Qed.

(** * The claims of the specification *)

Section Claims.
Context {DB : Type} (server : Server DB).
Context (config : Config) (V : Validators) (yaml_dump : PyObj -> string).
Implicit Types (w : World DB).

Local Abbreviation conninfo := (conninfo config).

(** C1, which the code does not meet.  The claim: the session connection
    stays open from one [query_database] call to the next and is closed
    only when the session ends.  The code: [query_database] runs its
    statement inside [with db_connection as conn], and leaving that block
    closes the connection; so whatever the first call did, a second call
    on the same [AppContext] raises [OperationalError] before any
    statement reaches the server. *)
Theorem query_database_second_call_fails query1 query2 ctx w :
  (query_database server yaml_dump query2 ctx
     (query_database server yaml_dump query1 ctx w).2).1
    = Raise (OperationalError "the connection is closed").
Proof. by rewrite query_database_outcome; simpl; rewrite query_database_closes. Qed.

(** C2, amended.  Only the session connection that [app_lifespan] makes
    has the row factory [dict_row], and [query_database] reads its rows by
    field name.  The connections that [get_schema_description] and
    [get_table_description] make have the driver's [tuple_row], and
    [TableSummary] and [Column] are built from the positions 0 to 2 and
    0 to 6 of each tuple. *)
Theorem row_access_by_acquisition schema table w :
  accepts server (database w) conninfo = true ->
  (forall A (session : AppContext -> M DB A),
      (forall ctx, keeps_factories (session ctx)) ->
      factories (app_lifespan server config session w).2 = factories w ++ [dict_row])
  /\ (forall names values,
        process_row (make_row dict_row names values)
          = Return (normalize_row_spec (dict_zip names values)))
  /\ factories (get_schema_description server config V yaml_dump schema w).2
       = factories w ++ [tuple_row]
  /\ factories (get_table_description server config V yaml_dump schema table w).2
       = factories w ++ [tuple_row]
  /\ (forall names a b c rest,
        summary_of_row V (make_row tuple_row names (a :: b :: c :: rest))
          = TableSummary.init V a b c)
  /\ (forall names a b c d e f g rest,
        column_of_row V
          (make_row tuple_row names (a :: b :: c :: d :: e :: f :: g :: rest))
          = Column.init V a b c d e f g).
Proof.
  intros Ha. split_and!.
  - intros A session Hs. by apply factories_app_lifespan.
  - intros names values. apply process_row_dict.
  - by apply factories_get_schema_description.
  - by apply factories_get_table_description.
  - done.
  - done.
Qed.

(** C3.  When the catalog has no column for (schema, table), because the
    table is absent or has none, [get_table_description] does not raise:
    it returns the serialized [Table] of that schema and table with an
    empty column sequence. *)
Theorem describe_absent_table schema table names w :
  accepts server (database w) conninfo = true ->
  (run server (database w) columns_query
     (<["schema" := PyStr schema]> {["table" := PyStr table]})).1 = TuplesOk names [] ->
  (get_table_description server config V yaml_dump schema table w).1
    = Return (yaml_dump (Table.model_dump (Table.make schema table []))).
Proof. intros Ha Hrun. by rewrite get_table_description_outcome, Ha, Hrun. Qed.

(** C4.  When the catalog query yields no row for the schema, as it does
    for a schema that does not exist, [get_schema_description] does not
    raise: it returns the serialized [DatabaseSummary] with an empty table
    sequence. *)
Theorem list_absent_schema schema names w :
  accepts server (database w) conninfo = true ->
  (run server (database w) schema_query {["schema" := PyStr schema]}).1
    = TuplesOk names [] ->
  (get_schema_description server config V yaml_dump schema w).1
    = Return (yaml_dump (DatabaseSummary.model_dump (DatabaseSummary.make []))).
Proof. intros Ha Hrun. by rewrite get_schema_description_outcome, Ha, Hrun. Qed.

(** C5.  Inside [query_database], on the rows of the session connection:
    the normaliser gives as many rows as were fetched, and in each row a
    field holding a [uuid.UUID] holds its canonical string afterwards,
    while every other field, present or not, is as it was. *)
Theorem query_database_normalizes query ctx names tuples w :
  closed (deref w (db_connection ctx)) = false ->
  row_factory (deref w (db_connection ctx)) = dict_row ->
  (run server (default (database w) (pending (deref w (db_connection ctx)))) query ∅).1
    = TuplesOk names tuples ->
  exists processed_rows,
    process_rows (make_row dict_row names <$> tuples) = Return processed_rows
    /\ (query_database server yaml_dump query ctx w).1
         = Return (yaml_dump (PyList (PyDict <$> processed_rows)))
    /\ length processed_rows = length tuples
    /\ forall i values, tuples !! i = Some values ->
         exists processed_row,
           processed_rows !! i = Some processed_row
           /\ forall key,
                processed_row !! key =
                  match dict_zip names values !! key with
                  | Some (PyUUID int) => Some (PyStr (uuid.str int))
                  | other => other
                  end.
Proof.
  intros Hopen Hdict Hrun.
  exists (normalize_rows_spec (dict_zip names <$> tuples)).
  assert (process_rows (make_row dict_row names <$> tuples)
            = Return (normalize_rows_spec (dict_zip names <$> tuples))) as Hp
    by by rewrite make_row_dict, process_rows_dicts.
  split_and!.
  - done.
  - rewrite query_database_outcome; simpl. by rewrite Hopen, Hrun, Hdict, Hp.
  - unfold normalize_rows_spec. by rewrite !length_fmap.
  - intros i values Hi. exists (normalize_row_spec (dict_zip names values)). split.
    + unfold normalize_rows_spec. by rewrite !list_lookup_fmap, Hi.
    + intros key. apply normalize_row_spec_lookup.
Qed.

(** C6.  The mapping step of [get_table_description] keeps the catalog's
    order: the descriptor has one column per fetched row, and its i-th
    column is the [Column] built from the i-th row. *)
Theorem describe_table_keeps_order schema table names tuples out w :
  (run server (database w) columns_query
     (<["schema" := PyStr schema]> {["table" := PyStr table]})).1 = TuplesOk names tuples ->
  (get_table_description server config V yaml_dump schema table w).1 = Return out ->
  exists columns,
    out = yaml_dump (Table.model_dump (Table.make schema table columns))
    /\ length columns = length tuples
    /\ forall i values, tuples !! i = Some values ->
         exists column,
           columns !! i = Some column
           /\ column_of_row V (make_row tuple_row names values) = Return column.
Proof.
  intros Hrun. rewrite get_table_description_outcome, Hrun.
  destruct (accepts server (database w) conninfo); [|done].
  destruct (mapM (column_of_row V) (RTuple <$> tuples)) as [columns|e] eqn:Hm; [|done].
  intros [= <-]. exists columns.
  apply mapM_Return in Hm. apply Forall2_fmap_l in Hm.
  split_and!; [done|by erewrite <- Forall2_length|].
  intros i values Hi.
  destruct (Forall2_lookup_l _ _ _ _ _ Hm Hi) as (column & Hc & Hcol). eauto.
Qed.

(** C7.  [query_database] returns all or nothing.  When it returns, the
    statement was answered with rows, every one of them was normalised (a
    field holding a [uuid.UUID] holds its canonical string, every other
    field is as the server gave it), and the text is the serialization of
    them all, one processed row per fetched row, in order.  When the server
    rejects the statement, or the connection is closed, the call raises
    and hands no row to the caller. *)
Theorem query_database_all_or_nothing query ctx w :
  let c := deref w (db_connection ctx) in
  let answer := (run server (default (database w) (pending c)) query ∅).1 in
  let outcome := (query_database server yaml_dump query ctx w).1 in
  (forall out, outcome = Return out ->
     exists names tuples processed_rows,
       closed c = false
       /\ answer = TuplesOk names tuples
       /\ process_rows (make_row (row_factory c) names <$> tuples) = Return processed_rows
       /\ length processed_rows = length tuples
       /\ out = yaml_dump (PyList (PyDict <$> processed_rows))
       /\ forall i values, tuples !! i = Some values ->
            exists processed_row,
              processed_rows !! i = Some processed_row
              /\ forall key,
                   processed_row !! key =
                     match dict_zip names values !! key with
                     | Some (PyUUID int) => Some (PyStr (uuid.str int))
                     | other => other
                     end)
  /\ (forall msg, closed c = false -> answer = FatalError msg ->
        outcome = Raise (DatabaseError msg))
  /\ (closed c = true -> outcome = Raise (OperationalError "the connection is closed")).
Proof.
  intros c answer outcome. subst outcome.
  rewrite query_database_outcome; fold c; simpl; fold answer.
  split_and!.
  - intros out. destruct (closed c); [done|].
    destruct answer as [names tuples| |msg]; [|done..].
    destruct (process_rows _) as [processed_rows|e] eqn:Hp; [|done].
    intros [= <-]. exists names, tuples, processed_rows.
    split_and!; try done.
    + by rewrite (process_rows_length _ _ Hp), length_fmap.
    + intros i values Hi.
      destruct (process_rows_Return _ _ Hp) as (dicts & Hrows & ->).
      apply (f_equal (fun rows : list Row => rows !! i)) in Hrows.
      rewrite !list_lookup_fmap, Hi in Hrows; simpl in Hrows.
      destruct (dicts !! i) as [fields|] eqn:Hfields; [|done].
      injection Hrows as Hrow.
      destruct (row_factory c); [done|]. injection Hrow as <-.
      exists (normalize_row_spec (dict_zip names values)). split.
      * unfold normalize_rows_spec. by rewrite list_lookup_fmap, Hfields.
      * intros key. apply normalize_row_spec_lookup.
  - by intros msg -> ->.
  - by intros ->.
Qed.

(** C9.  [get_schema_description] is a function of what the server
    answers: two calls with the same schema name, in two states of the
    world where the server accepts the session alike and answers the
    catalog query alike, return the same text or raise the same
    exception. *)
Theorem get_schema_description_deterministic schema w1 w2 :
  accepts server (database w1) conninfo = accepts server (database w2) conninfo ->
  (run server (database w1) schema_query {["schema" := PyStr schema]}).1
    = (run server (database w2) schema_query {["schema" := PyStr schema]}).1 ->
  (get_schema_description server config V yaml_dump schema w1).1
    = (get_schema_description server config V yaml_dump schema w2).1.
Proof. intros Ha Hrun. by rewrite !get_schema_description_outcome, Ha, Hrun. Qed.

(** C10.  Whenever [get_table_description] returns, the [schema_name] and
    [table_name] of the [Table] it serializes are the two arguments of the
    call, not values read from the catalog rows. *)
Theorem describe_table_echoes_names schema table out w :
  (get_table_description server config V yaml_dump schema table w).1 = Return out ->
  exists columns,
    out = yaml_dump (Table.model_dump
                       {| Table.schema_name := schema;
                          Table.table_name := table;
                          Table.columns := columns |}).
Proof.
  rewrite get_table_description_outcome.
  destruct (accepts server (database w) conninfo); [|done].
  destruct (run server (database w) columns_query _).1 as [names tuples| |msg]; [|done..].
  destruct (mapM (column_of_row V) (RTuple <$> tuples)) as [columns|e]; [|done].
  intros [= <-]. by exists columns.
Qed.

End Claims.

(** * The claims on the scenario of the specification *)

(** The specification's scenario: [public] holds the one table [users],
    with its comment. *)
Example scenario_list_tables :
  (get_schema_description Scenario.server Scenario.config Scenario.lax Scenario.dump
     "public" Scenario.world).1
    = Return (Scenario.dump (DatabaseSummary.model_dump (DatabaseSummary.make
        [TableSummary.make "public" "users" (Some "Application users")]))).
Proof. vm_compute. reflexivity. Qed.

(** Three columns, in the order [id], [name], [age]. *)
Example scenario_describe_table :
  (get_table_description Scenario.server Scenario.config Scenario.lax Scenario.dump
     "public" "users" Scenario.world).1
    = Return Scenario.description_of_users.
Proof. vm_compute. reflexivity. Qed.

(** The session starts in [Scenario.session_world]. *)
Example scenario_session_start :
  psycopg_connect Scenario.server (conninfo Scenario.config) dict_row Scenario.world
    = (Return (db_connection Scenario.session_ctx), Scenario.session_world).
Proof. reflexivity. Qed.

(** A unique-identifier value comes out as its canonical string. *)
Example scenario_query_uuid :
  (query_database Scenario.server Scenario.dump "SELECT id FROM users LIMIT 1"
     Scenario.session_ctx Scenario.session_world).1
    = Return "[{id: a1b2c3d4-e5f6-0718-293a-4b5c6d7e8f90}]".
Proof. vm_compute. reflexivity. Qed.

(** One session, the same query twice: the first call is answered, the
    second finds the session connection closed. *)
Example scenario_session_of_two_queries :
  (query_session Scenario.server Scenario.config Scenario.dump
     ["SELECT id FROM users LIMIT 1"; "SELECT id FROM users LIMIT 1"] Scenario.world).1
    = Return [Return "[{id: a1b2c3d4-e5f6-0718-293a-4b5c6d7e8f90}]";
              Raise (OperationalError "the connection is closed")].
Proof. vm_compute. reflexivity. Qed.

(** C2 as stated fails: the connection that [get_schema_description] makes
    has the row factory [tuple_row], not [dict_row]; the mapping step builds
    the [TableSummary] from a tuple and raises on the name-keyed record of
    the same row. *)
Lemma catalog_rows_are_tuples :
  factories (get_schema_description Scenario.server Scenario.config Scenario.lax
               Scenario.dump "public" Scenario.world).2 = [tuple_row]
  /\ summary_of_row Scenario.lax
       (make_row tuple_row ["schema_name"; "table_name"; "table_description"]
          [PyStr "public"; PyStr "users"; PyStr "Application users"])
     = Return (TableSummary.make "public" "users" (Some "Application users"))
  /\ summary_of_row Scenario.lax
       (make_row dict_row ["schema_name"; "table_name"; "table_description"]
          [PyStr "public"; PyStr "users"; PyStr "Application users"])
     = Raise KeyError.
Proof. split_and!; vm_compute; reflexivity. Qed.

Lemma row_access_by_acquisition_witness :
  accepts Scenario.server (database Scenario.world) (conninfo Scenario.config) = true
  /\ factories (get_table_description Scenario.server Scenario.config Scenario.lax
                  Scenario.dump "public" "users" Scenario.world).2
       = factories Scenario.world ++ [tuple_row].
Proof.
  split; [reflexivity|].
  apply (row_access_by_acquisition Scenario.server Scenario.config Scenario.lax
           Scenario.dump "public" "users" Scenario.world).
  reflexivity.
Defined.

Lemma describe_absent_table_witness :
  (get_table_description Scenario.server Scenario.config Scenario.lax Scenario.dump
     "public" "orders" Scenario.world).1
    = Return (Scenario.dump (Table.model_dump (Table.make "public" "orders" []))).
Proof.
  apply (describe_absent_table Scenario.server Scenario.config Scenario.lax Scenario.dump
           "public" "orders" Scenario.names_of_columns Scenario.world);
    vm_compute; reflexivity.
Defined.

Lemma list_absent_schema_witness :
  (get_schema_description Scenario.server Scenario.config Scenario.lax Scenario.dump
     "archive" Scenario.world).1
    = Return (Scenario.dump (DatabaseSummary.model_dump (DatabaseSummary.make []))).
Proof.
  apply (list_absent_schema Scenario.server Scenario.config Scenario.lax Scenario.dump
           "archive" ["schema_name"; "table_name"; "table_description"] Scenario.world);
    vm_compute; reflexivity.
Defined.

Lemma query_database_normalizes_witness :
  exists processed_rows,
    process_rows (make_row dict_row Scenario.names_of_users <$> Scenario.users Scenario.catalog)
      = Return processed_rows
    /\ (query_database Scenario.server Scenario.dump "SELECT * FROM users"
          Scenario.session_ctx Scenario.session_world).1
         = Return (Scenario.dump (PyList (PyDict <$> processed_rows)))
    /\ length processed_rows = length (Scenario.users Scenario.catalog)
    /\ forall i values, Scenario.users Scenario.catalog !! i = Some values ->
         exists processed_row,
           processed_rows !! i = Some processed_row
           /\ forall key,
                processed_row !! key =
                  match dict_zip Scenario.names_of_users values !! key with
                  | Some (PyUUID int) => Some (PyStr (uuid.str int))
                  | other => other
                  end.
Proof.
  apply (query_database_normalizes Scenario.server Scenario.dump "SELECT * FROM users"
           Scenario.session_ctx Scenario.names_of_users (Scenario.users Scenario.catalog)
           Scenario.session_world);
    vm_compute; reflexivity.
Defined.

Lemma describe_table_keeps_order_witness :
  exists columns,
    Scenario.description_of_users
      = Scenario.dump (Table.model_dump (Table.make "public" "users" columns))
    /\ length columns = length Scenario.columns_of_users
    /\ forall i values, Scenario.columns_of_users !! i = Some values ->
         exists column,
           columns !! i = Some column
           /\ column_of_row Scenario.lax
                (make_row tuple_row Scenario.names_of_columns values) = Return column.
Proof.
  apply (describe_table_keeps_order Scenario.server Scenario.config Scenario.lax
           Scenario.dump "public" "users" Scenario.names_of_columns
           Scenario.columns_of_users Scenario.description_of_users Scenario.world);
    vm_compute; reflexivity.
Defined.

Lemma query_database_all_or_nothing_witness :
  (exists names tuples processed_rows,
     closed (deref Scenario.session_world (db_connection Scenario.session_ctx)) = false
     /\ (run Scenario.server Scenario.catalog "SELECT * FROM users" ∅).1
          = TuplesOk names tuples
     /\ process_rows (make_row dict_row names <$> tuples) = Return processed_rows
     /\ length processed_rows = length tuples
     /\ "[{id: a1b2c3d4-e5f6-0718-293a-4b5c6d7e8f90, age: 36, name: Ada}]"
          = Scenario.dump (PyList (PyDict <$> processed_rows))
     /\ forall i values, tuples !! i = Some values ->
          exists processed_row,
            processed_rows !! i = Some processed_row
            /\ forall key,
                 processed_row !! key =
                   match dict_zip names values !! key with
                   | Some (PyUUID int) => Some (PyStr (uuid.str int))
                   | other => other
                   end)
  /\ (query_database Scenario.server Scenario.dump "SELEC * FROM users"
        Scenario.session_ctx Scenario.session_world).1
       = Raise (DatabaseError "syntax error")
  /\ (query_database Scenario.server Scenario.dump "SELECT * FROM users"
        Scenario.session_ctx
        (query_database Scenario.server Scenario.dump "SELECT * FROM users"
           Scenario.session_ctx Scenario.session_world).2).1
       = Raise (OperationalError "the connection is closed").
Proof.
  split_and!.
  - apply (query_database_all_or_nothing Scenario.server Scenario.dump
             "SELECT * FROM users" Scenario.session_ctx Scenario.session_world).
    vm_compute; reflexivity.
  - apply (query_database_all_or_nothing Scenario.server Scenario.dump
             "SELEC * FROM users" Scenario.session_ctx Scenario.session_world);
      vm_compute; reflexivity.
  - apply (query_database_all_or_nothing Scenario.server Scenario.dump
             "SELECT * FROM users" Scenario.session_ctx
             (query_database Scenario.server Scenario.dump "SELECT * FROM users"
                Scenario.session_ctx Scenario.session_world).2).
    vm_compute; reflexivity.
Defined.

Lemma get_schema_description_deterministic_witness :
  (get_schema_description Scenario.server Scenario.config Scenario.lax Scenario.dump
     "public" Scenario.world).1
    = (get_schema_description Scenario.server Scenario.config Scenario.lax Scenario.dump
         "public"
         (get_schema_description Scenario.server Scenario.config Scenario.lax
            Scenario.dump "public" Scenario.world).2).1.
Proof.
  apply (get_schema_description_deterministic Scenario.server Scenario.config
           Scenario.lax Scenario.dump "public");
    vm_compute; reflexivity.
Defined.

Lemma describe_table_echoes_names_witness :
  exists columns,
    Scenario.description_of_users
      = Scenario.dump (Table.model_dump
                         {| Table.schema_name := "public";
                            Table.table_name := "users";
                            Table.columns := columns |}).
Proof.
  apply (describe_table_echoes_names Scenario.server Scenario.config Scenario.lax
           Scenario.dump "public" "users" Scenario.description_of_users Scenario.world).
  vm_compute; reflexivity.
Defined.

(** * Beyond the claims *)

(** ** The world after a [with] block, exactly *)

Section ExactStore.
Context {DB : Type} (server : Server DB).
Implicit Types (w : World DB) (conn : ConnRef) (c : Connection DB).

Lemma deref_lookup w conn c : connections w !! conn = Some c -> deref w conn = c.
Proof. unfold deref. by intros ->. Qed.

Lemma assign_assign w conn c1 c2 :
  assign conn c2 (assign conn c1 w) = assign conn c2 w.
Proof. unfold assign; simpl. by rewrite list_insert_insert_eq. Qed.

Lemma Connection_exit_open conn raised w c :
  connections w !! conn = Some c ->
  closed c = false ->
  Connection_exit conn raised w =
    (Return (),
     assign conn (closed_of c)
       {| database := if raised then database w else default (database w) (pending c);
          connections := connections w |}).
Proof.
  intros Hc Hopen. pose proof (lookup_lt_Some _ _ _ Hc) as Hlt.
  unfold Connection_exit. rewrite (deref_lookup _ _ _ Hc), Hopen.
  unfold mbind, M_bind. destruct raised.
  - unfold Connection_rollback, Connection_close; simpl.
    rewrite (deref_lookup _ _ _ Hc), deref_assign by done; simpl. rewrite Hopen.
    rewrite assign_assign. by destruct w.
  - unfold Connection_commit. rewrite (deref_lookup _ _ _ Hc).
    destruct (pending c) as [db1|] eqn:Hp; simpl.
    + unfold Connection_close. rewrite deref_assign by done; simpl. rewrite Hopen.
      by rewrite assign_assign.
    + unfold Connection_close. rewrite (deref_lookup _ _ _ Hc), Hopen.
      unfold closed_of. by destruct w.
Qed.
End ExactStore.

Section ExactRuns.
Context {DB : Type} (server : Server DB).
Context (config : Config) (V : Validators) (yaml_dump : PyObj -> string).
Implicit Types (w : World DB) (conn : ConnRef) (c : Connection DB).

Lemma with_fetch_open query params conn w c :
  connections w !! conn = Some c ->
  closed c = false ->
  with_connection conn (fetch server query params) w =
    match run server (default (database w) (pending c)) query params with
    | (TuplesOk names tuples, db') =>
        (Return (make_row (row_factory c) names <$> tuples),
         {| database := db'; connections := <[conn := closed_of c]> (connections w) |})
    | (CommandOk, _) =>
        (Raise (ProgrammingError "the last operation didn't produce a result"),
         {| database := database w; connections := <[conn := closed_of c]> (connections w) |})
    | (FatalError msg, _) =>
        (Raise (DatabaseError msg),
         {| database := database w; connections := <[conn := closed_of c]> (connections w) |})
    end.
Proof.
  intros Hc Hopen. pose proof (lookup_lt_Some _ _ _ Hc) as Hlt.
  unfold with_connection, fetch, mbind, M_bind, Connection_cursor, Cursor_execute; simpl.
  rewrite (deref_lookup _ _ _ Hc), Hopen; simpl.
  rewrite (deref_lookup _ _ _ Hc), Hopen.
  destruct (run server _ query params) as [[names tuples| |msg] db']; simpl.
  - erewrite Connection_exit_open;
      [|unfold assign; simpl; by apply list_lookup_insert_eq|done]; simpl.
    unfold assign; simpl. by rewrite list_insert_insert_eq.
  - erewrite Connection_exit_open;
      [|unfold assign; simpl; by apply list_lookup_insert_eq|done]; simpl.
    unfold assign; simpl. by rewrite list_insert_insert_eq.
  - by erewrite Connection_exit_open.
Qed.

Lemma with_fetch_closed query params conn w :
  closed (deref w conn) = true ->
  with_connection conn (fetch server query params) w
    = (Raise (OperationalError "the connection is closed"), w).
Proof.
  intros Hc.
  unfold with_connection, fetch, mbind, M_bind, Connection_cursor.
  rewrite Hc. unfold Connection_exit. by rewrite Hc.
Qed.

Lemma insert_fresh (conns : list (Connection DB)) c c' :
  <[length conns := c']> (conns ++ [c]) = conns ++ [c'].
Proof. by rewrite <- (Nat.add_0_r (length conns)), insert_app_r. Qed.

Local Abbreviation conninfo := (conninfo config).

Lemma with_fetch_fresh query params w :
  with_connection (length (connections w)) (fetch server query params)
    {| database := database w;
       connections := connections w
         ++ [{| closed := false; row_factory := tuple_row; pending := None |}] |} =
    match run server (database w) query params with
    | (TuplesOk names tuples, db') =>
        (Return (RTuple <$> tuples),
         {| database := db'; connections := connections w ++ [spent] |})
    | (CommandOk, _) =>
        (Raise (ProgrammingError "the last operation didn't produce a result"),
         {| database := database w; connections := connections w ++ [spent] |})
    | (FatalError msg, _) =>
        (Raise (DatabaseError msg),
         {| database := database w; connections := connections w ++ [spent] |})
    end.
Proof.
  erewrite with_fetch_open; [|by apply list_lookup_middle|done]; simpl.
  rewrite insert_fresh.
  by destruct (run server (database w) query params) as [[names tuples| |msg] db'].
Qed.

Lemma get_schema_description_run schema w :
  accepts server (database w) conninfo = true ->
  get_schema_description server config V yaml_dump schema w =
    match run server (database w) schema_query {["schema" := PyStr schema]} with
    | (TuplesOk names tuples, db') =>
        (tables ← mapM (summary_of_row V) (RTuple <$> tuples);
         Return (yaml_dump (DatabaseSummary.model_dump (DatabaseSummary.make tables))),
         {| database := db'; connections := connections w ++ [spent] |})
    | (CommandOk, _) =>
        (Raise (ProgrammingError "the last operation didn't produce a result"),
         {| database := database w; connections := connections w ++ [spent] |})
    | (FatalError msg, _) =>
        (Raise (DatabaseError msg),
         {| database := database w; connections := connections w ++ [spent] |})
    end.
Proof.
  intros Ha. unfold get_schema_description. fold conninfo.
  fold (fetch server schema_query {["schema" := PyStr schema]}).
  unfold mbind at 1, M_bind at 1. rewrite psycopg_connect_accepted by done.
  unfold mbind at 1, M_bind at 1. rewrite with_fetch_fresh.
  destruct (run server (database w) schema_query _) as [[names tuples| |msg] db'];
    [|done..].
  unfold mbind at 1, M_bind at 1.
  rewrite Connection_close_closed by (unfold deref; simpl; by rewrite list_lookup_middle).
  unfold mbind at 1, M_bind at 1, pure.
  by destruct (mapM _ _).
Qed.

Lemma get_table_description_run schema table w :
  accepts server (database w) conninfo = true ->
  get_table_description server config V yaml_dump schema table w =
    match run server (database w) columns_query
            (<["schema" := PyStr schema]> {["table" := PyStr table]}) with
    | (TuplesOk names tuples, db') =>
        (columns ← mapM (column_of_row V) (RTuple <$> tuples);
         Return (yaml_dump (Table.model_dump (Table.make schema table columns))),
         {| database := db'; connections := connections w ++ [spent] |})
    | (CommandOk, _) =>
        (Raise (ProgrammingError "the last operation didn't produce a result"),
         {| database := database w; connections := connections w ++ [spent] |})
    | (FatalError msg, _) =>
        (Raise (DatabaseError msg),
         {| database := database w; connections := connections w ++ [spent] |})
    end.
Proof.
  intros Ha. unfold get_table_description. fold conninfo.
  fold (fetch server columns_query (<["schema" := PyStr schema]> {["table" := PyStr table]})).
  unfold mbind at 1, M_bind at 1. rewrite psycopg_connect_accepted by done.
  unfold mbind at 1, M_bind at 1. rewrite with_fetch_fresh.
  destruct (run server (database w) columns_query _) as [[names tuples| |msg] db'];
    [|done..].
  unfold mbind at 1, M_bind at 1.
  rewrite Connection_close_closed by (unfold deref; simpl; by rewrite list_lookup_middle).
  unfold mbind at 1, M_bind at 1, pure.
  destruct (mapM _ _) as [columns|e]; [|done]. simpl.
  unfold mbind, M_bind, Table.init. by rewrite !validate_str_str.
Qed.

Lemma query_database_closed query ctx w :
  closed (deref w (db_connection ctx)) = true ->
  query_database server yaml_dump query ctx w
    = (Raise (OperationalError "the connection is closed"), w).
Proof.
  intros Hc. unfold query_database. fold (fetch server query ∅).
  unfold mbind at 1, M_bind at 1. by rewrite with_fetch_closed.
Qed.

End ExactRuns.

(** ** Lists of fallible steps, and the normaliser read backwards *)

Lemma mapM_Raise {A B} (f : A -> Outcome B) (l : list A) i x e :
  l !! i = Some x -> f x = Raise e -> exists e', mapM f l = Raise e'.
Proof.
  revert i. induction l as [|y l IH]; intros i Hi Hx; [done|].
  change (mapM f (y :: l)) with (z ← f y; k ← mapM f l; mret (z :: k)).
  destruct i as [|i]; simpl in Hi.
  - injection Hi as ->. rewrite Hx. eauto.
  - destruct (f y) as [z|e1]; simpl; [|eauto].
    destruct (IH i Hi Hx) as [e' ->]. eauto.
Qed.

Lemma normalize_spec_idemp value :
  normalize_spec (normalize_spec value) = normalize_spec value.
Proof. by destruct value. Qed.

Lemma normalize_spec_not_UUID value : isinstance_UUID (normalize_spec value) = false.
Proof. by destruct value. Qed.

(** ** The session and the refused session *)

Section Lifespan.
Context {DB : Type} (server : Server DB).
Context (config : Config) (V : Validators) (yaml_dump : PyObj -> string).
Implicit Types (w : World DB) (conn : ConnRef) (c : Connection DB).

Local Abbreviation conninfo := (conninfo config).

Lemma app_lifespan_accepted {A} (session : AppContext -> M DB A) w :
  accepts server (database w) conninfo = true ->
  app_lifespan server config session w =
    let conn := length (connections w) in
    let after :=
      session {| db_connection := conn |}
        {| database := database w;
           connections := connections w
             ++ [{| closed := false; row_factory := dict_row; pending := None |}] |} in
    (after.1, (Connection_close conn after.2).2).
Proof.
  intros Ha. unfold app_lifespan. fold conninfo. unfold mbind, M_bind.
  rewrite psycopg_connect_accepted by done. unfold try_finally; simpl.
  destruct (session _ _) as [r w1]; simpl.
  pose proof (Connection_close_outcome (length (connections w)) w1) as Hc.
  by destruct (Connection_close _ w1) as [[[]|e] w2].
Qed.

Lemma app_lifespan_refused {A} (session : AppContext -> M DB A) w :
  accepts server (database w) conninfo = false ->
  app_lifespan server config session w
    = (Raise (OperationalError "connection failed"), w).
Proof.
  intros Ha. unfold app_lifespan. fold conninfo. unfold mbind, M_bind.
  by rewrite psycopg_connect_refused.
Qed.

Lemma get_schema_description_refused schema w :
  accepts server (database w) conninfo = false ->
  get_schema_description server config V yaml_dump schema w
    = (Raise (OperationalError "connection failed"), w).
Proof.
  intros Ha. unfold get_schema_description. fold conninfo. unfold mbind, M_bind.
  by rewrite psycopg_connect_refused.
Qed.

Lemma get_table_description_refused schema table w :
  accepts server (database w) conninfo = false ->
  get_table_description server config V yaml_dump schema table w
    = (Raise (OperationalError "connection failed"), w).
Proof.
  intros Ha. unfold get_table_description. fold conninfo. unfold mbind, M_bind.
  by rewrite psycopg_connect_refused.
Qed.

Lemma mapM_attempt_closed queries ctx w :
  closed (deref w (db_connection ctx)) = true ->
  mapM (fun query => attempt (query_database server yaml_dump query ctx)) queries w
    = (Return ((fun _ => Raise (OperationalError "the connection is closed")) <$> queries),
       w).
Proof.
  intros Hc. induction queries as [|query queries IH]; [done|].
  change (mapM ?f (query :: queries)) with (y ← f query; k ← mapM f queries; mret (y :: k)).
  unfold mbind at 1, M_bind at 1, attempt at 1.
  rewrite query_database_closed by done.
  unfold mbind at 1, M_bind at 1. by rewrite IH.
Qed.

End Lifespan.

(** ** Strings: the prompts and the canonical form of an identifier *)

Lemma string_length_app (s t : string) :
  String.length (s +:+ t) = String.length s + String.length t.
Proof. induction s as [|x s IH]; simpl; [done|]. by rewrite IH. Qed.

Lemma string_app_inj_r (s1 s2 t : string) : s1 +:+ t = s2 +:+ t -> s1 = s2.
Proof.
  revert s2. induction s1 as [|x s1 IH]; intros [|y s2] Heq; simpl in *.
  - done.
  - apply (f_equal String.length) in Heq. simpl in Heq.
    rewrite !string_length_app in Heq. simpl in Heq. lia.
  - apply (f_equal String.length) in Heq. simpl in Heq.
    rewrite !string_length_app in Heq. simpl in Heq. lia.
  - injection Heq as -> Heq. f_equal. by apply IH.
Qed.

(** Two strings free of [c], each followed by [c]: the first [c] tells
    where they end. *)
Lemma string_split_at c (s1 s2 r1 r2 : string) :
  mentions c s1 = false -> mentions c s2 = false ->
  s1 +:+ String c r1 = s2 +:+ String c r2 -> s1 = s2 /\ r1 = r2.
Proof.
  revert s2. induction s1 as [|x s1 IH]; intros [|y s2]; simpl.
  - intros _ _ [= ->]. done.
  - intros _ Hy [= <- _]. by rewrite decide_True in Hy.
  - intros Hx _ [= -> _]. by rewrite decide_True in Hx.
  - intros Hx Hy [= -> Heq].
    destruct (decide (y = c)); [done|].
    destruct (IH s2 Hx Hy Heq) as [-> ->]. done.
Qed.

Ltac split_below i k :=
  lazymatch k with
  | O => idtac
  | S ?k' => destruct i as [|i]; [|split_below i k']
  end.

Ltac spell s k :=
  lazymatch k with
  | O => destruct s; [|done]
  | S ?k' => destruct s as [|? s]; [done|spell s k']
  end.

Lemma hex_digit_inj (a b : N) :
  (a < 16)%N -> (b < 16)%N -> uuid.hex_digit a = uuid.hex_digit b -> a = b.
Proof.
  intros Ha Hb. rewrite <- (N2Nat.id a), <- (N2Nat.id b).
  assert (N.to_nat a < 16) as Hi by lia. assert (N.to_nat b < 16) as Hj by lia.
  generalize dependent (N.to_nat b). generalize dependent (N.to_nat a).
  intros i Hi j Hj.
  split_below i 16; [..|lia]; (split_below j 16; [..|lia]); by intros [=].
Qed.

Lemma hex_digits_length width n : String.length (uuid.hex_digits width n) = width.
Proof. induction width as [|w IH]; simpl; [done|]. by rewrite IH. Qed.

Lemma hex_digits_inj width n m :
  uuid.hex_digits width n = uuid.hex_digits width m ->
  (n mod 16 ^ N.of_nat width = m mod 16 ^ N.of_nat width)%N.
Proof.
  induction width as [|w IH].
  - intros _. by rewrite !N.mod_1_r.
  - cbn [uuid.hex_digits]. intros [= Hd Hrest].
    apply hex_digit_inj in Hd; [|by apply N.mod_lt..].
    specialize (IH Hrest).
    rewrite Nat2N.inj_succ, N.pow_succ_r', (N.mul_comm 16).
    rewrite !N.Div0.mod_mul_r. by rewrite IH, Hd.
Qed.

Lemma dashes_inj (x y : string) :
  String.length x = 32 -> String.length y = 32 ->
  String.substring 0 8 x +:+ "-" +:+ String.substring 8 4 x +:+ "-"
    +:+ String.substring 12 4 x +:+ "-" +:+ String.substring 16 4 x +:+ "-"
    +:+ String.substring 20 12 x
  = String.substring 0 8 y +:+ "-" +:+ String.substring 8 4 y +:+ "-"
    +:+ String.substring 12 4 y +:+ "-" +:+ String.substring 16 4 y +:+ "-"
    +:+ String.substring 20 12 y ->
  x = y.
Proof.
  intros Hx Hy. spell x 32. spell y 32. cbn. intros Heq. by simplify_eq.
Qed.

Lemma uuid_str_inj (n m : N) :
  (n < 2 ^ 128)%N -> (m < 2 ^ 128)%N -> uuid.str n = uuid.str m -> n = m.
Proof.
  intros Hn Hm Heq. unfold uuid.str in Heq.
  apply dashes_inj in Heq; [|apply hex_digits_length..].
  apply hex_digits_inj in Heq.
  change (16 ^ N.of_nat 32)%N with (2 ^ 128)%N in Heq.
  by rewrite !N.mod_small in Heq.
Qed.

(** ** The life cycle of connections *)

Section BeyondTheClaims.
Context {DB : Type} (server : Server DB).
Context (config : Config) (V : Validators) (yaml_dump : PyObj -> string).
Implicit Types (w : World DB) (conn : ConnRef) (c : Connection DB).

Local Abbreviation conninfo := (conninfo config).

(** X1.  [app_lifespan] hands the session a context whose connection is
    open and made with [dict_row], gives back what the session returned or
    raised, and closes that connection on the way out, whichever of the two
    the session did. *)
Theorem app_lifespan_releases {A} (session : AppContext -> M DB A) w :
  accepts server (database w) conninfo = true ->
  let conn := length (connections w) in
  let started :=
    {| database := database w;
       connections := connections w
         ++ [{| closed := false; row_factory := dict_row; pending := None |}] |} in
  (app_lifespan server config session w).1 = (session {| db_connection := conn |} started).1
  /\ closed (deref (app_lifespan server config session w).2 conn) = true.
Proof.
  intros Ha conn started. rewrite app_lifespan_accepted by done; simpl.
  split; [done|]. apply Connection_close_closes.
Qed.

(** X2.  When the server refuses the session, [app_lifespan] (hence a whole
    session of queries) and the two catalog readers raise the driver's
    [OperationalError] and leave the world as it was: the session body does
    not run, no statement is sent, no connection is added to the store. *)
Theorem refused_session_changes_nothing {A} (session : AppContext -> M DB A)
    schema table queries w :
  accepts server (database w) conninfo = false ->
  app_lifespan server config session w
    = (Raise (OperationalError "connection failed"), w)
  /\ query_session server config yaml_dump queries w
       = (Raise (OperationalError "connection failed"), w)
  /\ get_schema_description server config V yaml_dump schema w
       = (Raise (OperationalError "connection failed"), w)
  /\ get_table_description server config V yaml_dump schema table w
       = (Raise (OperationalError "connection failed"), w).
Proof.
  intros Ha. unfold query_session. split_and!.
  - by apply app_lifespan_refused.
  - by apply app_lifespan_refused.
  - by apply get_schema_description_refused.
  - by apply get_table_description_refused.
Qed.

(** X3.  A catalog reader adds one connection to the store and leaves it
    closed on every way out (rows mapped, a row that does not map, a
    statement the server rejects); the connections that were there, the
    session connection among them, are as they were. *)
Theorem catalog_readers_release_their_connection schema table w :
  accepts server (database w) conninfo = true ->
  connections (get_schema_description server config V yaml_dump schema w).2
    = connections w ++ [spent]
  /\ connections (get_table_description server config V yaml_dump schema table w).2
       = connections w ++ [spent].
Proof.
  intros Ha. rewrite get_schema_description_run, get_table_description_run by done.
  split.
  - by destruct (run server (database w) schema_query _) as [[names tuples| |msg] db'].
  - by destruct (run server (database w) columns_query _) as [[names tuples| |msg] db'].
Qed.

(** X4.  When the server rejects the catalog statement, a catalog reader
    raises the driver's error with the server's message unchanged, and the
    database is in the state it was in. *)
Theorem catalog_readers_surface_the_server_error schema table msg w :
  accepts server (database w) conninfo = true ->
  ((run server (database w) schema_query {["schema" := PyStr schema]}).1 = FatalError msg ->
   (get_schema_description server config V yaml_dump schema w).1 = Raise (DatabaseError msg)
   /\ database (get_schema_description server config V yaml_dump schema w).2 = database w)
  /\ ((run server (database w) columns_query
         (<["schema" := PyStr schema]> {["table" := PyStr table]})).1 = FatalError msg ->
      (get_table_description server config V yaml_dump schema table w).1
        = Raise (DatabaseError msg)
      /\ database (get_table_description server config V yaml_dump schema table w).2
           = database w).
Proof.
  intros Ha. rewrite get_schema_description_run, get_table_description_run by done.
  split.
  - destruct (run server (database w) schema_query _) as [r db']; simpl. by intros ->.
  - destruct (run server (database w) columns_query _) as [r db']; simpl. by intros ->.
Qed.

(** X5.  The mapping step of [get_schema_description] keeps the order of
    the catalog rows: the summary has one table per fetched row, and its
    i-th table is the [TableSummary] built from the i-th row. *)
Theorem list_tables_keeps_order schema names tuples out w :
  (run server (database w) schema_query {["schema" := PyStr schema]}).1
    = TuplesOk names tuples ->
  (get_schema_description server config V yaml_dump schema w).1 = Return out ->
  exists tables,
    out = yaml_dump (DatabaseSummary.model_dump (DatabaseSummary.make tables))
    /\ length tables = length tuples
    /\ forall i values, tuples !! i = Some values ->
         exists table,
           tables !! i = Some table
           /\ summary_of_row V (make_row tuple_row names values) = Return table.
Proof.
  intros Hrun. rewrite get_schema_description_outcome, Hrun.
  destruct (accepts server (database w) conninfo); [|done].
  destruct (mapM (summary_of_row V) (RTuple <$> tuples)) as [tables|e] eqn:Hm; [|done].
  intros [= <-]. exists tables.
  apply mapM_Return in Hm. apply Forall2_fmap_l in Hm.
  split_and!; [done|by erewrite <- Forall2_length|].
  intros i values Hi.
  destruct (Forall2_lookup_l _ _ _ _ _ Hm Hi) as (table & Ht & Htable). eauto.
Qed.

(** X6.  A catalog reader gives no partial summary: if one fetched row
    does not map (it is too short, or a field is rejected), the call
    raises, whatever the other rows are. *)
Theorem catalog_readers_give_no_partial_result schema table names tuples i values e w :
  tuples !! i = Some values ->
  ((run server (database w) schema_query {["schema" := PyStr schema]}).1
     = TuplesOk names tuples ->
   summary_of_row V (make_row tuple_row names values) = Raise e ->
   exists e', (get_schema_description server config V yaml_dump schema w).1 = Raise e')
  /\ ((run server (database w) columns_query
         (<["schema" := PyStr schema]> {["table" := PyStr table]})).1
        = TuplesOk names tuples ->
      column_of_row V (make_row tuple_row names values) = Raise e ->
      exists e', (get_table_description server config V yaml_dump schema table w).1
                   = Raise e').
Proof.
  intros Hi.
  assert ((RTuple <$> tuples) !! i = Some (RTuple values)) as Hrow
    by by rewrite list_lookup_fmap, Hi.
  split; intros Hrun Hmap.
  - rewrite get_schema_description_outcome, Hrun.
    destruct (accepts server (database w) conninfo); [|eauto].
    destruct (mapM_Raise _ _ _ _ _ Hrow Hmap) as [e' ->]. eauto.
  - rewrite get_table_description_outcome, Hrun.
    destruct (accepts server (database w) conninfo); [|eauto].
    destruct (mapM_Raise _ _ _ _ _ Hrow Hmap) as [e' ->]. eauto.
Qed.

(** X7.  A statement that the server runs without giving rows (a write
    with nothing to return) makes [query_database] raise: the statement is
    sent, and the fetch that follows raises [ProgrammingError], so the
    caller is never told that such a statement went through. *)
Theorem query_database_raises_without_rows query ctx w :
  closed (deref w (db_connection ctx)) = false ->
  (run server (default (database w) (pending (deref w (db_connection ctx)))) query ∅).1
    = CommandOk ->
  (query_database server yaml_dump query ctx w).1
    = Raise (ProgrammingError "the last operation didn't produce a result").
Proof.
  intros Hopen Hrun. rewrite query_database_outcome; simpl. by rewrite Hopen, Hrun.
Qed.

(** X9.  In a session of queries, one outcome comes back per query; the
    first is that of [query_database] on the freshly opened session
    connection, and every later one is [OperationalError]: the first call
    has closed the connection. *)
Theorem session_answers_its_first_query_only queries w :
  accepts server (database w) conninfo = true ->
  let ctx := {| db_connection := length (connections w) |} in
  let started :=
    {| database := database w;
       connections := connections w
         ++ [{| closed := false; row_factory := dict_row; pending := None |}] |} in
  exists outs,
    (query_session server config yaml_dump queries w).1 = Return outs
    /\ length outs = length queries
    /\ (forall query, queries !! 0 = Some query ->
          outs !! 0 = Some (query_database server yaml_dump query ctx started).1)
    /\ (forall i, 0 < i -> i < length queries ->
          outs !! i = Some (Raise (OperationalError "the connection is closed"))).
Proof.
  intros Ha ctx started. unfold query_session.
  rewrite app_lifespan_accepted by done. cbv zeta. fold ctx started.
  destruct queries as [|query queries].
  - exists []. split_and!; [done..|]. simpl; lia.
  - change (mapM ?f (query :: queries)) with (y ← f query; k ← mapM f queries; mret (y :: k)).
    unfold mbind at 1, M_bind at 1, attempt at 1.
    pose proof (query_database_closes server yaml_dump query ctx started) as Hc.
    destruct (query_database server yaml_dump query ctx started) as [r w1] eqn:Hfirst.
    cbn [fst snd] in Hc.
    unfold mbind at 1, M_bind at 1. rewrite mapM_attempt_closed by done; simpl.
    eexists; split_and!;
      [done|simpl; by rewrite length_fmap|intros ? [= <-]; by rewrite Hfirst|].
    intros [|i] Hpos Hlt; [lia|]; simpl in *.
    rewrite list_lookup_fmap.
    destruct (queries !! i) eqn:Hq; [done|].
    apply lookup_ge_None in Hq. lia.
Qed.

(** X10.  A call of [query_database] on a closed session connection does
    nothing but raise: no statement is sent, the database and the store are
    as they were, and the connection is not opened again. *)
Theorem query_database_on_closed_connection query ctx w :
  closed (deref w (db_connection ctx)) = true ->
  query_database server yaml_dump query ctx w
    = (Raise (OperationalError "the connection is closed"), w).
Proof. apply query_database_closed. Qed.

(** X11.  The [close()] that the catalog readers call after their [with]
    block finds the connection closed already and changes nothing. *)
Theorem close_after_with_does_nothing {A} conn (body : ConnRef -> M DB A) w :
  Connection_close conn (with_connection conn body w).2
    = (Return (), (with_connection conn body w).2).
Proof. apply Connection_close_closed, with_connection_closes. Qed.

(** X12.  All that a catalog reader asks of the server is to accept the
    session and to answer its one fixed statement with the caller's names
    bound as parameters: on two servers that agree on these two things,
    however they differ on every other statement, the reader returns the
    same and leaves the same world. *)
Theorem catalog_readers_send_one_statement (server' : Server DB) schema table w :
  accepts server (database w) conninfo = accepts server' (database w) conninfo ->
  (run server (database w) schema_query {["schema" := PyStr schema]}
     = run server' (database w) schema_query {["schema" := PyStr schema]} ->
   get_schema_description server config V yaml_dump schema w
     = get_schema_description server' config V yaml_dump schema w)
  /\ (run server (database w) columns_query
         (<["schema" := PyStr schema]> {["table" := PyStr table]})
       = run server' (database w) columns_query
           (<["schema" := PyStr schema]> {["table" := PyStr table]}) ->
      get_table_description server config V yaml_dump schema table w
        = get_table_description server' config V yaml_dump schema table w).
Proof.
  intros Ha. destruct (accepts server (database w) conninfo) eqn:Ha1; symmetry in Ha.
  - split; intros Hrun.
    + by rewrite !get_schema_description_run, Hrun.
    + by rewrite !get_table_description_run, Hrun.
  - split; intros _.
    + by rewrite !get_schema_description_refused.
    + by rewrite !get_table_description_refused.
Qed.

End BeyondTheClaims.

(** ** The normaliser *)

(** X13.  After the normaliser no field of any row holds a [uuid.UUID]. *)
Theorem processed_rows_hold_no_UUID rows processed_rows i row key value :
  process_rows rows = Return processed_rows ->
  processed_rows !! i = Some row ->
  row !! key = Some value ->
  isinstance_UUID value = false.
Proof.
  intros Hp Hi Hkey. destruct (process_rows_Return _ _ Hp) as (dicts & -> & ->).
  unfold normalize_rows_spec in Hi. rewrite list_lookup_fmap in Hi.
  destruct (dicts !! i) as [fields|]; [|done]. injection Hi as <-.
  unfold normalize_row_spec in Hkey. rewrite lookup_fmap in Hkey.
  destruct (fields !! key) as [v|]; [|done]. injection Hkey as <-.
  apply normalize_spec_not_UUID.
Qed.

(** X14.  The normaliser is idempotent: run on rows it produced, it gives
    them back unchanged. *)
Theorem process_rows_idempotent rows processed_rows :
  process_rows rows = Return processed_rows ->
  process_rows (RDict <$> processed_rows) = Return processed_rows.
Proof.
  intros Hp. destruct (process_rows_Return _ _ Hp) as (dicts & -> & ->).
  rewrite process_rows_dicts. f_equal.
  unfold normalize_rows_spec. rewrite <- list_fmap_compose.
  apply list_fmap_ext. intros _ fields _; simpl.
  unfold normalize_row_spec. rewrite <- map_fmap_compose.
  apply map_fmap_ext. intros _ value _; simpl. apply normalize_spec_idemp.
Qed.

(** X15.  The conversion is one-way: a row holding a [uuid.UUID] and the
    row holding, under the same key, the string of its canonical form are
    normalised to the same row, so the output does not tell them apart. *)
Theorem process_row_forgets_the_type (fields : gmap string PyObj) key int :
  process_row (RDict (<[key := PyUUID int]> fields))
    = process_row (RDict (<[key := PyStr (uuid.str int)]> fields)).
Proof. rewrite !process_row_dict. unfold normalize_row_spec. by rewrite !fmap_insert. Qed.

(** X16.  Two different identifiers (128-bit integers) are never
    normalised to the same string. *)
Theorem distinct_UUIDs_stay_distinct key (n m : N) :
  (n < 2 ^ 128)%N -> (m < 2 ^ 128)%N ->
  process_row (RDict {[key := PyUUID n]}) = process_row (RDict {[key := PyUUID m]}) ->
  n = m.
Proof.
  intros Hn Hm. rewrite !process_row_dict. unfold normalize_row_spec.
  rewrite !map_fmap_singleton. intros Heq.
  apply (f_equal (fun r : Outcome (gmap string PyObj) =>
                    match r with
                    | Return fields => fields !! key
                    | Raise _ => None
                    end)) in Heq.
  rewrite !lookup_singleton_eq in Heq. simpl in Heq.
  apply uuid_str_inj; [done..|]. congruence.
Qed.

(** ** The prompts *)

(** X17.  The schema prompt names its schema: two schema names with the
    same prompt are the same name. *)
Theorem prompt_schema_description_inj schema1 schema2 :
  prompt_schema_description schema1 = prompt_schema_description schema2 ->
  schema1 = schema2.
Proof.
  unfold prompt_schema_description. intros Heq.
  apply (inj (String.append _)) in Heq. by apply string_app_inj_r in Heq.
Qed.

(** X18.  A table prompt (of either kind) names one table of one schema,
    provided the table names hold no backquote: two pairs with the same
    prompt are then the same pair. *)
Theorem prompts_name_one_table schema1 table1 schema2 table2 :
  mentions "`" table1 = false ->
  mentions "`" table2 = false ->
  (prompt_table_description schema1 table1 = prompt_table_description schema2 table2 ->
   schema1 = schema2 /\ table1 = table2)
  /\ (prompt_query_database schema1 table1 = prompt_query_database schema2 table2 ->
      schema1 = schema2 /\ table1 = table2).
Proof.
  intros H1 H2. unfold prompt_table_description, prompt_query_database.
  split; intros Heq; apply (inj (String.append _)) in Heq;
    apply (string_split_at _ _ _ _ _ H1 H2) in Heq as [-> Heq];
    simplify_eq; by match goal with H : _ +:+ _ = _ +:+ _ |- _ =>
                      apply string_app_inj_r in H as -> end.
Qed.

(** The proviso is needed: with a backquote in the table name, two
    different pairs have the same prompt. *)
Example prompt_of_a_quoted_table :
  prompt_table_description "c" "a` in the schema `b"
    = prompt_table_description "b` in the schema `c" "a".
Proof. reflexivity. Qed.

(** ** The same on the scenario *)

Lemma app_lifespan_releases_witness :
  (app_lifespan Scenario.server Scenario.config
     (query_database Scenario.server Scenario.dump "SELECT * FROM users") Scenario.world).1
    = (query_database Scenario.server Scenario.dump "SELECT * FROM users"
         Scenario.session_ctx Scenario.session_world).1
  /\ closed (deref (app_lifespan Scenario.server Scenario.config
                      (query_database Scenario.server Scenario.dump "SELECT * FROM users")
                      Scenario.world).2 0) = true.
Proof.
  apply (app_lifespan_releases Scenario.server Scenario.config
           (query_database Scenario.server Scenario.dump "SELECT * FROM users")
           Scenario.world).
  reflexivity.
Defined.

Lemma refused_session_changes_nothing_witness :
  app_lifespan Scenario.server Scenario.wrong_config
    (query_database Scenario.server Scenario.dump "SELECT * FROM users") Scenario.world
    = (Raise (OperationalError "connection failed"), Scenario.world)
  /\ query_session Scenario.server Scenario.wrong_config Scenario.dump
       ["SELECT * FROM users"] Scenario.world
     = (Raise (OperationalError "connection failed"), Scenario.world)
  /\ get_schema_description Scenario.server Scenario.wrong_config Scenario.lax
       Scenario.dump "public" Scenario.world
     = (Raise (OperationalError "connection failed"), Scenario.world)
  /\ get_table_description Scenario.server Scenario.wrong_config Scenario.lax
       Scenario.dump "public" "users" Scenario.world
     = (Raise (OperationalError "connection failed"), Scenario.world).
Proof.
  apply (refused_session_changes_nothing Scenario.server Scenario.wrong_config
           Scenario.lax Scenario.dump).
  reflexivity.
Defined.

Lemma catalog_readers_release_their_connection_witness :
  connections (get_schema_description Scenario.server Scenario.config Scenario.lax
                 Scenario.dump "public" Scenario.session_world).2
    = connections Scenario.session_world ++ [spent]
  /\ connections (get_table_description Scenario.server Scenario.config Scenario.lax
                    Scenario.dump "public" "users" Scenario.session_world).2
     = connections Scenario.session_world ++ [spent].
Proof.
  apply (catalog_readers_release_their_connection Scenario.server Scenario.config
           Scenario.lax Scenario.dump "public" "users" Scenario.session_world).
  reflexivity.
Defined.

Lemma catalog_readers_surface_the_server_error_witness :
  (get_schema_description Scenario.rejecting Scenario.config Scenario.lax
     Scenario.dump "public" Scenario.world).1
    = Raise (DatabaseError "permission denied")
  /\ database (get_schema_description Scenario.rejecting Scenario.config Scenario.lax
                 Scenario.dump "public" Scenario.world).2
     = database Scenario.world.
Proof.
  apply (catalog_readers_surface_the_server_error Scenario.rejecting Scenario.config
           Scenario.lax Scenario.dump "public" "users" "permission denied" Scenario.world);
    reflexivity.
Defined.

Lemma list_tables_keeps_order_witness :
  exists tables,
    Scenario.dump (DatabaseSummary.model_dump (DatabaseSummary.make
      [ TableSummary.make "public" "orders" None;
        TableSummary.make "public" "products" (Some "What is sold");
        TableSummary.make "public" "users" (Some "Application users") ]))
      = Scenario.dump (DatabaseSummary.model_dump (DatabaseSummary.make tables))
    /\ length tables = length Scenario.rows_of_three_tables
    /\ forall i values, Scenario.rows_of_three_tables !! i = Some values ->
         exists table,
           tables !! i = Some table
           /\ summary_of_row Scenario.lax
                (make_row tuple_row ["schema_name"; "table_name"; "table_description"]
                   values) = Return table.
Proof.
  apply (list_tables_keeps_order Scenario.three_tables Scenario.config Scenario.lax
           Scenario.dump "public" ["schema_name"; "table_name"; "table_description"]
           Scenario.rows_of_three_tables _ Scenario.world);
    vm_compute; reflexivity.
Defined.

Lemma catalog_readers_give_no_partial_result_witness :
  exists e',
    (get_table_description Scenario.short_rows Scenario.config Scenario.lax
       Scenario.dump "public" "users" Scenario.world).1 = Raise e'.
Proof.
  apply (catalog_readers_give_no_partial_result Scenario.short_rows Scenario.config
           Scenario.lax Scenario.dump "public" "users" ["nspname"] [[PyStr "public"]]
           0 [PyStr "public"] IndexError Scenario.world);
    reflexivity.
Defined.

Lemma query_database_raises_without_rows_witness :
  (query_database Scenario.server Scenario.dump "DELETE FROM users"
     Scenario.session_ctx Scenario.session_world).1
    = Raise (ProgrammingError "the last operation didn't produce a result").
Proof.
  apply (query_database_raises_without_rows Scenario.server Scenario.dump
           "DELETE FROM users" Scenario.session_ctx Scenario.session_world);
    reflexivity.
Defined.

Lemma session_answers_its_first_query_only_witness :
  exists outs,
    (query_session Scenario.server Scenario.config Scenario.dump
       ["SELECT * FROM users"; "SELECT * FROM users"; "SELECT * FROM users"]
       Scenario.world).1 = Return outs
    /\ length outs = 3
    /\ (forall query,
          ["SELECT * FROM users"; "SELECT * FROM users"; "SELECT * FROM users"] !! 0
            = Some query ->
          outs !! 0 = Some (query_database Scenario.server Scenario.dump query
                              Scenario.session_ctx Scenario.session_world).1)
    /\ (forall i, 0 < i -> i < 3 ->
          outs !! i = Some (Raise (OperationalError "the connection is closed"))).
Proof.
  apply (session_answers_its_first_query_only Scenario.server Scenario.config
           Scenario.dump
           ["SELECT * FROM users"; "SELECT * FROM users"; "SELECT * FROM users"]
           Scenario.world).
  reflexivity.
Defined.

Lemma query_database_on_closed_connection_witness :
  query_database Scenario.server Scenario.dump "SELECT * FROM users" Scenario.session_ctx
    (query_database Scenario.server Scenario.dump "SELECT * FROM users"
       Scenario.session_ctx Scenario.session_world).2
  = (Raise (OperationalError "the connection is closed"),
     (query_database Scenario.server Scenario.dump "SELECT * FROM users"
        Scenario.session_ctx Scenario.session_world).2).
Proof.
  apply (query_database_on_closed_connection Scenario.server Scenario.dump).
  vm_compute; reflexivity.
Defined.

Lemma catalog_readers_send_one_statement_witness :
  get_schema_description Scenario.server Scenario.config Scenario.lax Scenario.dump
    "public" Scenario.world
  = get_schema_description Scenario.catalog_only Scenario.config Scenario.lax
      Scenario.dump "public" Scenario.world.
Proof.
  apply (catalog_readers_send_one_statement Scenario.server Scenario.config Scenario.lax
           Scenario.dump Scenario.catalog_only "public" "users" Scenario.world);
    reflexivity.
Defined.

Lemma processed_rows_hold_no_UUID_witness :
  isinstance_UUID (PyStr (uuid.str Scenario.a_uuid)) = false.
Proof.
  apply (processed_rows_hold_no_UUID
           [RDict {["id" := PyUUID Scenario.a_uuid]}]
           [{["id" := PyStr (uuid.str Scenario.a_uuid)]}]
           0 {["id" := PyStr (uuid.str Scenario.a_uuid)]} "id");
    vm_compute; reflexivity.
Defined.

Lemma process_rows_idempotent_witness :
  process_rows [RDict {["id" := PyStr (uuid.str Scenario.a_uuid)]}]
    = Return [{["id" := PyStr (uuid.str Scenario.a_uuid)]}].
Proof.
  apply (process_rows_idempotent [RDict {["id" := PyUUID Scenario.a_uuid]}]
           [{["id" := PyStr (uuid.str Scenario.a_uuid)]}]).
  vm_compute; reflexivity.
Defined.

Lemma distinct_UUIDs_stay_distinct_witness : Scenario.a_uuid = Scenario.a_uuid.
Proof.
  apply (distinct_UUIDs_stay_distinct "id" Scenario.a_uuid Scenario.a_uuid);
    reflexivity.
Defined.

Lemma prompt_schema_description_inj_witness : "public" = "public".
Proof. apply (prompt_schema_description_inj "public" "public"). reflexivity. Defined.

Lemma prompts_name_one_table_witness : "public" = "public" /\ "users" = "users".
Proof.
  apply (prompts_name_one_table "public" "users" "public" "users"); reflexivity.
Defined.
